(** * gpasfasta: loading GPAS fasta files from an object store into findNeighbour4

    A shallow embedding of [objectstoreaccess.py]: the identity extractor
    [filename2fn4id], the candidate computation, the per-file pipeline and
    the ledger writes of [ObjectStore2FN4.insert_files_into_server], and the
    poll loop of the command line entry point. *)

From Stdlib Require Import String Ascii ZArith Lia Sorted Permutation.
From stdpp Require Import base option list gmap sets strings.

Local Open Scope string_scope.

(** ** Python strings *)

Module PyStr.

(** [s.startswith(p)] *)
Definition startswith (s p : string) : bool := String.prefix p s.

(** [s.replace("", new)]: [new] before every character and at the end. *)
Fixpoint around_each (new s : string) : string :=
  match s with
  | EmptyString => new
  | String c s' => String.append new (String c (around_each new s'))
  end.

(** Left-to-right scan of [s.replace(old, new)] for a non-empty [old];
    [skip] counts the characters of a match that are still to be dropped. *)
Fixpoint replace_scan (old new : string) (skip : nat) (s : string) : string :=
  match s with
  | EmptyString => EmptyString
  | String c s' =>
      match skip with
      | S k => replace_scan old new k s'
      | O =>
          if String.prefix old s
          then String.append new (replace_scan old new (String.length old - 1) s')
          else String c (replace_scan old new 0 s')
      end
  end.

(** [s.replace(old, new)]: every non-overlapping occurrence, from the left. *)
Definition replace (s old new : string) : string :=
  match old with
  | EmptyString => around_each new s
  | _ => replace_scan old new 0 s
  end.

(** [s.split(sep)[0]] for a one-character [sep]: the part before the first
    [sep], or all of [s] when there is none. *)
Fixpoint split_first (sep : ascii) (s : string) : string :=
  match s with
  | EmptyString => EmptyString
  | String c s' => if Ascii.eqb c sep then EmptyString else String c (split_first sep s')
  end.

(** [s[:n]] *)
Definition take (n : nat) (s : string) : string := String.substring 0 n s.

(** [sub in s] *)
Fixpoint contains (s sub : string) : bool :=
  match s with
  | EmptyString => String.prefix sub EmptyString
  | String _ s' => String.prefix sub s || contains s' sub
  end.

End PyStr.

(** ** Python values that the code compares across types *)

Inductive pyval : Type :=
| PyInt (z : Z)
| PyStrList (l : list (option string))
| PyDict (kvs : gmap string Z).

(** [a == b]: values of different types are never equal. *)
Definition py_eq (a b : pyval) : bool :=
  match a, b with
  | PyInt x, PyInt y => Z.eqb x y
  | PyStrList l, PyStrList l' => bool_decide (l = l')
  | PyDict d, PyDict d' => bool_decide (d = d')
  | _, _ => false
  end.

(** ** Item identity extractor *)

(** [ObjectStore2FN4.filename2fn4id] *)
Definition filename2fn4id (x : string) : option string :=
  if PyStr.startswith x "GPAS_SP3"
  then Some (PyStr.replace x "GPAS_SP3|" "")
  else None.

(** ** Exceptions, and the state the code acts on *)

Inductive exn : Type :=
| ServiceError (code : string)      (* oci.exceptions.ServiceError *)
| HTTPError (status : Z)            (* requests.exceptions.HTTPError *)
| ConnectionError                   (* requests.exceptions.ConnectionError *)
| TypeError
| AttributeError
| ValueError                        (* Bio.SeqIO on a text it does not accept *)
| UnboundLocalError (var : string)
| Exception (class_name : string).  (* any other exception, by its class *)

Inductive result (A : Type) : Type :=
| Ok (a : A)
| Raise (e : exn).
Arguments Ok {A} a.
Arguments Raise {A} e.

(** A row of table [fn4batchload]. *)
Record FN4BatchLoadCheck : Type := {
  bc_host_name : string;
  bc_findneighbour_server_url : string;
  check_time : nat;
  bc_batch_size : nat;
  number_in_server : nat
}.

(** The dictionary [res] that [insert_files_into_server] fills for one file. *)
Record res_dict : Type := {
  host_name : string;
  findneighbour_server_url : string;
  parse_status : string;
  batch_start_time : nat;
  batch_sample_number : nat;
  batch_size : nat;
  seqid : option string;
  file_name : string;
  len_seq : option nat;
  first_128_chars : string;
  bucket_read_start_time : nat;
  bucket_read_end_time : nat;
  fn4id : option string;
  insert_start_time : option nat;
  insert_end_time : option nat;
  insert_status_code : option Z
}.

(** A row of table [fn4loadattempt]: [FN4LoadAttempt( **res )] once
    [res["completed"]] is set. *)
Record FN4LoadAttempt : Type := {
  la_res : res_dict;
  completed : Z
}.

(** What a [tls.add(..); tls.commit()] stores, in commit order. *)
Inductive db_row : Type :=
| BatchRow (bc : FN4BatchLoadCheck)
| AttemptRow (la : FN4LoadAttempt).

(** Calls that leave the process. *)
Inductive call : Type :=
| GetObject (object_name : string)            (* osc.get_object *)
| PostInsert (guid : string) (seq : string)   (* POST /api/v2/insert *)
| Sleep (seconds : nat).                      (* time.sleep *)

Record state : Type := {
  clock : nat;            (* what datetime.datetime.now() returns next *)
  db : list db_row;       (* both tables, oldest commit first *)
  calls : list call       (* oldest call first *)
}.

Definition M (A : Type) : Type := state -> state * result A.

Definition ret {A} (a : A) : M A := fun s => (s, Ok a).

Definition raise {A} (e : exn) : M A := fun s => (s, Raise e).

Definition bind {A B} (m : M A) (k : A -> M B) : M B :=
  fun s =>
    match m s with
    | (s', Ok a) => k a s'
    | (s', Raise e) => (s', Raise e)
    end.

Declare Scope py_scope.
Delimit Scope py_scope with py.
Notation "x <- c1 ;; c2" := (bind c1 (fun x => c2))
  (at level 100, c1 at next level, right associativity) : py_scope.
Notation "c1 ;; c2" := (bind c1 (fun _ => c2))
  (at level 100, right associativity) : py_scope.
Local Open Scope py_scope.

Definition lift {A} (r : result A) : M A := fun s => (s, r).

(** [datetime.datetime.now()] *)
Definition now : M nat :=
  fun s => ({| clock := S (clock s); db := db s; calls := calls s |}, Ok (clock s)).

(** [tls.add(row); tls.commit()] *)
Definition commit (r : db_row) : M unit :=
  fun s => ({| clock := clock s; db := db s ++ [r]; calls := calls s |}, Ok tt).

Definition called (c : call) : M unit :=
  fun s => ({| clock := clock s; db := db s; calls := calls s ++ [c] |}, Ok tt).

Definition get_db : M (list db_row) := fun s => (s, Ok (db s)).

(** ** Collaborators *)

(** A [SeqRecord] as far as the code reads it. *)
Record SeqRecord : Type := { id : string; seq : string }.

(** A [requests] response: the status code, and what
    [json.loads(response.content.decode("utf-8"))] makes of the body: the
    list of guids, or the error that the decoding raises (the end point
    answers with a JSON list of strings; a body that is not one is an
    error of the decoding here). *)
Record response : Type := { status_code : Z; json : result (list string) }.

(** What the outside world answers during one pass. *)
Record env : Type := {
  (* names of the rows of the data frame that [list_files] builds from
     osc.list_objects, oldest first; or the error of the listing call *)
  bucket_names : result (list string);
  (* osc.get_object(..).data.content.decode("utf-8") *)
  bucket_get : string -> result string;
  (* the iteration over SeqIO.parse(f, "fasta") on a text: the records it
     yields, with what str(record.id) and str(record.seq) give, and the
     exception that ends it, if one is raised *)
  SeqIO_parse : string -> list SeqRecord * option exn;
  (* session.get on /api/v2/guids *)
  http_guids : result response;
  (* session.post on /api/v2/insert with payload guid, seq *)
  http_insert : string -> string -> result response
}.

(** The fields of [self] that the pass reads. *)
Record ObjectStore2FN4 : Type := {
  self_host_name : string;
  self_findneighbour_server_url : string
}.

(** ** BucketAccess *)

(** [BucketAccess.list_files]: the names of the listed objects, or [None]
    when the bucket holds no object. *)
Definition list_files (e : env) : M (option (list string)) :=
  names <- lift (bucket_names e) ;;
  match names with
  | [] => ret None
  | _ :: _ => ret (Some names)
  end.

(** [BucketAccess.load_bucket_into_string]: no handler, errors propagate. *)
Definition load_bucket_into_string (e : env) (object_name : string) : M string :=
  called (GetObject object_name) ;;
  lift (bucket_get e object_name).

(** ** HTTP helpers of ObjectStore2FN4 *)

(** [response.raise_for_status()] *)
Definition raise_for_status (r : response) : M unit :=
  if (400 <=? status_code r)%Z && (status_code r <? 600)%Z
  then raise (HTTPError (status_code r))
  else ret tt.

(** [_getpost], given what the session call answers. *)
Definition _getpost (answer : result response) : M response :=
  r <- lift answer ;;
  (if (500 <=? status_code r)%Z then raise_for_status r else ret tt) ;;
  ret r.

(** [_decode]: no handler around the decoding of the body. *)
Definition _decode (r : response) : M (list string) :=
  raise_for_status r ;;
  lift (json r).

(** [guids] *)
Definition guids (e : env) : M (list string) :=
  r <- _getpost (http_guids e) ;;
  _decode r.

(** [_insert]; [seq] is [None] until a record has been read. *)
Definition _insert (e : env) (guid : string) (seq : option string) : M response :=
  match seq with
  | None => raise TypeError
  | Some seq =>
      called (PostInsert guid seq) ;;
      _getpost (http_insert e guid seq)
  end.

(** ** The ledger query *)

(** A criterion handed to [Query.filter]. *)
Inductive criterion : Type :=
| ColumnEq (column : FN4LoadAttempt -> string) (value : string)
    (* FN4LoadAttempt.column == value *)
| Literal (b : bool).
    (* a Python bool: WHERE true / WHERE false *)

Definition satisfies (la : FN4LoadAttempt) (c : criterion) : bool :=
  match c with
  | ColumnEq column value => String.eqb (column la) value
  | Literal b => b
  end.

Definition attempts (rows : list db_row) : list FN4LoadAttempt :=
  omap (fun r => match r with AttemptRow la => Some la | BatchRow _ => None end) rows.

Definition batches (rows : list db_row) : list FN4BatchLoadCheck :=
  omap (fun r => match r with BatchRow bc => Some bc | AttemptRow _ => None end) rows.

(** [tls.query(FN4LoadAttempt.fn4id).filter(c1).filter(c2)...] *)
Definition query_fn4id (rows : list db_row) (cs : list criterion) : list (option string) :=
  map (fun la => fn4id (la_res la))
      (List.filter (fun la => forallb (satisfies la) cs) (attempts rows)).

(** [a - b] for a set of strings [a] and a set [b] that may hold [None]. *)
Definition set_minus (a : gset string) (b : gset (option string)) : gset string :=
  filter (fun x => Some x ∉ b) a.

(** ** The candidate computation (lines 689-722) *)

(** [fn4id = filename.split(".")[0]] for every listed name. *)
Definition listed_fn4ids (names : list string) : list string :=
  map (PyStr.split_first ".") names.

(** The list [completed] after the query loop.  The third criterion is the
    Python expression [completed == 1] on the local list [completed]. *)
Definition completed_list (self : ObjectStore2FN4) (rows : list db_row) : list (option string) :=
  let completed : list (option string) := [] in
  completed ++
  query_fn4id rows
    [ ColumnEq (fun la => host_name (la_res la)) (self_host_name self);
      ColumnEq (fun la => findneighbour_server_url (la_res la))
               (self_findneighbour_server_url self);
      Literal (py_eq (PyStrList completed) (PyInt 1)) ].

(** The final value of [to_add]. *)
Definition to_add (self : ObjectStore2FN4) (names guids : list string)
    (rows : list db_row) : gset string :=
  let fn4ids : gset string := list_to_set (listed_fn4ids names) in
  let to_add := fn4ids ∖ list_to_set guids in
  let completed : gset (option string) := list_to_set (completed_list self rows) in
  set_minus to_add completed.

(** [current_files[current_files["fn4id"].isin(to_add)]]["name"] *)
Definition select_files (names : list string) (to_add : gset string) : list string :=
  List.filter (fun name => bool_decide (PyStr.split_first "." name ∈ to_add)) names.

(** ** Assignments to keys of [res] *)

Definition set_parse_status (v : string) (r : res_dict) : res_dict :=
  {| host_name := host_name r; findneighbour_server_url := findneighbour_server_url r;
     parse_status := v; batch_start_time := batch_start_time r;
     batch_sample_number := batch_sample_number r; batch_size := batch_size r;
     seqid := seqid r; file_name := file_name r; len_seq := len_seq r;
     first_128_chars := first_128_chars r;
     bucket_read_start_time := bucket_read_start_time r;
     bucket_read_end_time := bucket_read_end_time r; fn4id := fn4id r;
     insert_start_time := insert_start_time r; insert_end_time := insert_end_time r;
     insert_status_code := insert_status_code r |}.

(** The three assignments made for the first record. *)
Definition set_record (sid : string) (fname : string) (len : nat) (r : res_dict) : res_dict :=
  {| host_name := host_name r; findneighbour_server_url := findneighbour_server_url r;
     parse_status := parse_status r; batch_start_time := batch_start_time r;
     batch_sample_number := batch_sample_number r; batch_size := batch_size r;
     seqid := Some sid; file_name := fname; len_seq := Some len;
     first_128_chars := first_128_chars r;
     bucket_read_start_time := bucket_read_start_time r;
     bucket_read_end_time := bucket_read_end_time r; fn4id := fn4id r;
     insert_start_time := insert_start_time r; insert_end_time := insert_end_time r;
     insert_status_code := insert_status_code r |}.

Definition set_fn4id (v : option string) (r : res_dict) : res_dict :=
  {| host_name := host_name r; findneighbour_server_url := findneighbour_server_url r;
     parse_status := parse_status r; batch_start_time := batch_start_time r;
     batch_sample_number := batch_sample_number r; batch_size := batch_size r;
     seqid := seqid r; file_name := file_name r; len_seq := len_seq r;
     first_128_chars := first_128_chars r;
     bucket_read_start_time := bucket_read_start_time r;
     bucket_read_end_time := bucket_read_end_time r; fn4id := v;
     insert_start_time := insert_start_time r; insert_end_time := insert_end_time r;
     insert_status_code := insert_status_code r |}.

(** The three assignments made around [_insert]. *)
Definition set_insert (t0 t1 : nat) (code : Z) (r : res_dict) : res_dict :=
  {| host_name := host_name r; findneighbour_server_url := findneighbour_server_url r;
     parse_status := parse_status r; batch_start_time := batch_start_time r;
     batch_sample_number := batch_sample_number r; batch_size := batch_size r;
     seqid := seqid r; file_name := file_name r; len_seq := len_seq r;
     first_128_chars := first_128_chars r;
     bucket_read_start_time := bucket_read_start_time r;
     bucket_read_end_time := bucket_read_end_time r; fn4id := fn4id r;
     insert_start_time := Some t0; insert_end_time := Some t1;
     insert_status_code := Some code |}.

(** ** One file of the batch (lines 742-811) *)

(** The loop over [SeqIO.parse(f, "fasta")]: [nFiles] records seen so far. *)
Fixpoint parse_loop (fname : string) (records : list SeqRecord) (nFiles : nat)
    (res : res_dict) (sq : option string) : res_dict * option string :=
  match records with
  | [] => (res, sq)
  | record :: rest =>
      let nFiles := S nFiles in
      if (1 <? nFiles)%nat
      then parse_loop fname rest nFiles (set_parse_status "Failed, multifasta" res) sq
      else
        let res := set_parse_status "Success" res in
        let res := set_record (id record) fname (String.length (seq record)) res in
        parse_loop fname rest nFiles res (Some (seq record))
  end.

(** Lines 769-781: the loop runs over what the reader yields.  Nothing
    catches an exception of the reader; the loop body assigns to [res],
    [seq] and [nFiles] only, which are lost with it. *)
Definition parse_file (e : env) (fname file_content : string) (res : res_dict)
    : M (res_dict * option string) :=
  let '(records, fault) := SeqIO_parse e file_content in
  let out := parse_loop fname records 0 res None in
  match fault with
  | Some err => raise err
  | None => ret out
  end.

(** Lines 783-787: the identity is taken from the record id. *)
Definition derive_fn4id (res : res_dict) : M res_dict :=
  if String.eqb (parse_status res) "Success"
  then
    match seqid res with
    | None => raise AttributeError
    | Some sid =>
        let res := set_fn4id (filename2fn4id sid) res in
        match fn4id res with
        | None => ret (set_parse_status "Failed, seqid does not start with GPAS" res)
        | Some _ => ret res
        end
    end
  else ret res.

(** Lines 789-794. *)
Definition submit (e : env) (res : res_dict) (sq : option string) : M res_dict :=
  match fn4id res with
  | Some guid =>
      t0 <- now ;;
      insert_response <- _insert e guid sq ;;
      t1 <- now ;;
      ret (set_insert t0 t1 (status_code insert_response) res)
  | None => ret res
  end.

(** Lines 798-803. *)
Definition move_file (res : res_dict) : Z :=
  let move_file := 0%Z in
  let move_file := if negb (String.eqb (parse_status res) "Success") then 1%Z else move_file in
  let move_file :=
    if bool_decide (insert_status_code res = Some 200%Z) then 1%Z else move_file in
  move_file.

(** The dictionary literal of lines 748-765. *)
Definition new_res (self : ObjectStore2FN4) (batch_start n_to_add i : nat)
    (fname file_content : string) (read_start read_end : nat) : res_dict :=
  {| host_name := self_host_name self;
     findneighbour_server_url := self_findneighbour_server_url self;
     parse_status := "Failed";
     batch_start_time := batch_start;
     batch_sample_number := i;
     batch_size := n_to_add;
     seqid := None;
     file_name := fname;
     len_seq := None;
     first_128_chars := PyStr.take 128 file_content;
     bucket_read_start_time := read_start;
     bucket_read_end_time := read_end;
     fn4id := None;
     insert_start_time := None;
     insert_end_time := None;
     insert_status_code := None |}.

(** Lines 742-794 of the loop body: [res] when the row is about to be
    made. *)
Definition attempt (self : ObjectStore2FN4) (e : env) (batch_start : nat)
    (n_to_add : nat) (i : nat) (fname : string) : M res_dict :=
  read_start <- now ;;
  file_content <- load_bucket_into_string e fname ;;
  read_end <- now ;;
  let res := new_res self batch_start n_to_add i fname file_content read_start read_end in
  parsed <- parse_file e fname file_content res ;;
  let '(res, sq) := parsed in
  res <- derive_fn4id res ;;
  submit e res sq.

(** The body of the [for i, file_name in enumerate(...)] loop. *)
Definition process_file (self : ObjectStore2FN4) (e : env) (batch_start : nat)
    (n_to_add : nat) (i : nat) (fname : string) : M unit :=
  res <- attempt self e batch_start n_to_add i fname ;;
  commit (AttemptRow {| la_res := res; completed := move_file res |}).

(** [for i, x in enumerate(l)]: returns the binding of [i] after the loop,
    [None] when the loop variable was never bound. *)
Fixpoint for_enumerate {A} (body : nat -> A -> M unit) (l : list A) (next : nat)
    (i : option nat) : M (option nat) :=
  match l with
  | [] => ret i
  | x :: l' => body next x ;; for_enumerate body l' (S next) (Some next)
  end.

(** ** One pass, and the poll loop *)

(** [ObjectStore2FN4.insert_files_into_server] *)
Definition insert_files_into_server (self : ObjectStore2FN4) (e : env) : M pyval :=
  current_files <- list_files e ;;
  match current_files with
  | None => ret (PyDict {[ "added" := 0%Z ]})
  | Some names =>
      server_guids <- guids e ;;
      rows <- get_db ;;
      let todo := to_add self names server_guids rows in
      let current_files := select_files names todo in
      batch_start <- now ;;
      t <- now ;;
      let bc :=
        {| bc_host_name := self_host_name self;
           bc_findneighbour_server_url := self_findneighbour_server_url self;
           check_time := t;
           bc_batch_size := length current_files;
           number_in_server := length server_guids |} in
      commit (BatchRow bc) ;;
      i <- for_enumerate (process_file self e batch_start (size todo)) current_files 0 None ;;
      match i with
      | None => raise (UnboundLocalError "i")
      | Some i => ret (PyDict {[ "added" := Z.of_nat i ]})
      end
  end.

(** The body of [while True] in the entry point. *)
Definition poll_once (self : ObjectStore2FN4) (e : env) : M unit :=
  n_inserted <- insert_files_into_server self e ;;
  if py_eq n_inserted (PyInt 0)
  then called (Sleep 180)
  else ret tt.

(** The [while True] loop, run for as many passes as [worlds] has answers;
    an exception ends it. *)
Fixpoint poll_loop (self : ObjectStore2FN4) (worlds : list env) : M unit :=
  match worlds with
  | [] => ret tt
  | e :: rest => poll_once self e ;; poll_loop self rest
  end.

(** ** A FASTA reader for the scenarios

    Biopython is not part of the repository: [SeqIO_parse] is a field of
    [env] and the theorems hold for every value of it.  The scenarios below
    need one reader; this is the plain format: a line starting with [>]
    opens a record whose id is the first word of the rest of the line, and
    the following lines, without blanks, are its sequence.  An empty text
    has no record; a text whose first line does not start with [>] is
    refused with ValueError. *)

Module Fasta.

Definition nl : ascii := ascii_of_nat 10.

Definition is_space (c : ascii) : bool :=
  let n := nat_of_ascii c in
  (n =? 32)%nat || ((9 <=? n)%nat && (n <=? 13)%nat).

(** The lines of a text, without their line ends. *)
Fixpoint lines_from (cur : string) (s : string) : list string :=
  match s with
  | EmptyString => match cur with EmptyString => [] | _ => [cur] end
  | String c s' =>
      if Ascii.eqb c nl then cur :: lines_from EmptyString s'
      else lines_from (String.append cur (String c EmptyString)) s'
  end.

Fixpoint rstrip (s : string) : string :=
  match s with
  | EmptyString => EmptyString
  | String c s' =>
      match rstrip s' with
      | EmptyString => if is_space c then EmptyString else String c EmptyString
      | r => String c r
      end
  end.

Fixpoint lstrip (s : string) : string :=
  match s with
  | EmptyString => EmptyString
  | String c s' => if is_space c then lstrip s' else s
  end.

Fixpoint until_space (s : string) : string :=
  match s with
  | EmptyString => EmptyString
  | String c s' => if is_space c then EmptyString else String c (until_space s')
  end.

(** [title.split(None, 1)[0]], or the empty string for an empty title. *)
Definition first_word (title : string) : string := until_space (lstrip title).

Fixpoint no_blanks (s : string) : string :=
  match s with
  | EmptyString => EmptyString
  | String c s' =>
      if Ascii.eqb c " " || Ascii.eqb c (ascii_of_nat 13) then no_blanks s'
      else String c (no_blanks s')
  end.

Definition record (title body : string) : SeqRecord :=
  {| id := first_word title; seq := no_blanks body |}.

(** Inside a record: [title] is open and [body] collects its lines. *)
Fixpoint in_record (title body : string) (ls : list string) : list SeqRecord :=
  match ls with
  | [] => [record title body]
  | String ">" t :: ls' => record title body :: in_record (rstrip t) EmptyString ls'
  | l :: ls' => in_record title (String.append body (rstrip l)) ls'
  end.

Definition parse (text : string) : list SeqRecord * option exn :=
  match lines_from EmptyString text with
  | [] => ([], None)
  | String ">" t :: ls => (in_record (rstrip t) EmptyString ls, None)
  | _ :: _ => ([], Some ValueError)
  end.

(** A one-record file. *)
Definition file (title sequence : string) : string :=
  String.append (String ">" title)
    (String nl (String.append sequence (String nl EmptyString))).

End Fasta.

(** ** Scenarios *)

Module Scenario.

Definition me : ObjectStore2FN4 :=
  {| self_host_name := "fn4dev";
     self_findneighbour_server_url := "http://localhost:5025" |}.

(** A bucket holding [files] (name, text), a server that lists [gs] and
    answers every insert with [code]. *)
Definition world (files : list (string * string)) (gs : list string) (code : Z) : env :=
  {| bucket_names := Ok (map fst files);
     bucket_get := fun name =>
       match List.find (fun f => String.eqb (fst f) name) files with
       | Some f => Ok (snd f)
       | None => Raise (ServiceError "ObjectNotFound")
       end;
     SeqIO_parse := Fasta.parse;
     http_guids := Ok {| status_code := 200; json := Ok gs |};
     http_insert := fun _ _ => Ok {| status_code := code; json := Ok [] |} |}.

(** The same, but [missing] is listed and cannot be read. *)
Definition world_with_missing (missing : string) (files : list (string * string))
    (gs : list string) (code : Z) : env :=
  {| bucket_names := Ok (missing :: map fst files);
     bucket_get := bucket_get (world files gs code);
     SeqIO_parse := Fasta.parse;
     http_guids := http_guids (world files gs code);
     http_insert := http_insert (world files gs code) |}.

Definition start : state := {| clock := 0; db := []; calls := [] |}.

(** An earlier, accepted attempt for identity [abc]. *)
Definition accepted_abc : FN4LoadAttempt :=
  {| la_res :=
       set_insert 4 5 200
         (set_fn4id (Some "abc")
            (set_record "GPAS_SP3|abc" "abc.fasta" 4
               (set_parse_status "Success"
                  (new_res me 0 1 0 "abc.fasta" (Fasta.file "GPAS_SP3|abc" "ACGT") 2 3))));
     completed := 1 |}.

End Scenario.

(** ** ObjectStore2FN4.__init__: the database connection (lines 452-570) *)

(** Which [raise FN4LoadError(...)] of [__init__] was reached. *)
Inductive load_error_reason : Type :=
| NoConfigFileVariable     (* DB_CONNECTION_CONFIG_FILE is not in os.environ *)
| UnknownConnection        (* the token is no key of the configuration file *)
| KeysNotCorrect           (* DBTYPE or ENGINE_NAME is missing *)
| OracleKeysNotCorrect.    (* DBTYPE is oracle and TNS_ADMIN is missing *)

Inductive startup_error : Type :=
| FN4LoadError (why : load_error_reason)
| FileNotFoundError (path : string)
| JSONDecodeError
| KeyError (key : string)
| Raised (err : exn).      (* an error of a call into SQLAlchemy *)

(** What the process can see and change when it starts: [os.environ], the
    files that exist with what [json.load] makes of each (a dictionary of
    connection dictionaries, or [None] where it raises), and the rows of
    the two tables. *)
Record process : Type := {
  environ : gmap string string;
  json_files : gmap string (option (gmap string (gmap string string)));
  tables : list db_row
}.

(** The attributes that [__init__] sets. *)
Record instance : Type := {
  core : ObjectStore2FN4;
  namespace_name : string;
  input_bucket_name : string;
  engine_name : string;
  using_sqlite : bool;
  is_oracle : bool;
  is_sqlite : bool
}.

(** Lines 459-537: the engine name for [connection_config], and
    [os.environ] afterwards. *)
Definition resolve_engine (connection_config : option string) (p : process)
    : startup_error + (string * gmap string string) :=
  match connection_config with
  | None => inr ("sqlite://", environ p)
  | Some token =>
      if PyStr.contains token "://" then inr (token, environ p)
      else
        match environ p !! "DB_CONNECTION_CONFIG_FILE" with
        | None => inl (FN4LoadError NoConfigFileVariable)
        | Some conn_detail_file =>
            match json_files p !! conn_detail_file with
            | None => inl (FileNotFoundError conn_detail_file)
            | Some None => inl JSONDecodeError
            | Some (Some conn_detail) =>
                match conn_detail !! token with
                | None => inl (FN4LoadError UnknownConnection)
                | Some this_configuration =>
                    let essential_keys : gset string := {[ "DBTYPE"; "ENGINE_NAME" ]} in
                    if bool_decide (0 < size (essential_keys ∖ dom this_configuration))
                    then inl (FN4LoadError KeysNotCorrect)
                    else
                      match this_configuration !! "DBTYPE",
                            this_configuration !! "ENGINE_NAME" with
                      | None, _ => inl (KeyError "DBTYPE")
                      | _, None => inl (KeyError "ENGINE_NAME")
                      | Some dbtype, Some name =>
                          if String.eqb dbtype "oracle"
                          then
                            let essential_keys : gset string :=
                              {[ "DBTYPE"; "ENGINE_NAME"; "TNS_ADMIN" ]} in
                            if bool_decide
                                 (0 < size (essential_keys ∖ dom this_configuration))
                            then inl (FN4LoadError OracleKeysNotCorrect)
                            else
                              match this_configuration !! "TNS_ADMIN" with
                              | None => inl (KeyError "TNS_ADMIN")
                              | Some tns =>
                                  inr (name, <[ "TNS_ADMIN" := tns ]> (environ p))
                              end
                          else inr (name, environ p)
                      end
                end
            end
        end
  end.

(** What the calls into SQLAlchemy do at start-up: whether
    [create_engine(name)] and [metadata.create_all(bind=engine)] raise, and
    whether the two deletes and the commit of [_delete_existing_data] do,
    and which rows are then left. *)
Record sqlalchemy : Type := {
  create_engine : string -> option exn;
  create_all : string -> option exn;
  sessionmaker : string -> option exn;     (* lines 553-557 *)
  failed_delete : option (exn * list db_row)
}.

(** [_delete_existing_data] *)
Definition _delete_existing_data (sql : sqlalchemy) (rows : list db_row)
    : list db_row * option exn :=
  match failed_delete sql with
  | Some (err, rows_left) => (rows_left, Some err)
  | None => (List.filter (fun _ => false) rows, None)
  end.

(** [ObjectStore2FN4.__init__]; [hostname] is what [socket.gethostname()]
    returns.  Nothing is caught: an error of [create_engine], [create_all]
    or the session factory leaves [__init__] after line 534 has run. *)
Definition init (sql : sqlalchemy)
    (findneighbour_server_url namespace input_bucket : string)
    (connection_config : option string) (debug : Z) (hostname : string)
    (p : process) : process * (startup_error + instance) :=
  match resolve_engine connection_config p with
  | inl err => (p, inl err)
  | inr (name, env') =>
      let p1 := {| environ := env'; json_files := json_files p; tables := tables p |} in
      match create_engine sql name with
      | Some err => (p1, inl (Raised err))
      | None =>
          match create_all sql name with
          | Some err => (p1, inl (Raised err))
          | None =>
              match sessionmaker sql name with
              | Some err => (p1, inl (Raised err))
              | None =>
                  let self :=
                    {| core := {| self_host_name := hostname;
                                  self_findneighbour_server_url :=
                                    findneighbour_server_url |};
                       namespace_name := namespace;
                       input_bucket_name := input_bucket;
                       engine_name := name;
                       using_sqlite := PyStr.startswith name "sqlite://";
                       is_oracle := PyStr.contains name "oracle+cx";
                       is_sqlite := PyStr.contains name "sqlite://" |} in
                  if (debug =? 2)%Z
                  then
                    match _delete_existing_data sql (tables p1) with
                    | (rows, Some err) =>
                        ({| environ := env'; json_files := json_files p;
                            tables := rows |},
                         inl (Raised err))
                    | (rows, None) =>
                        ({| environ := env'; json_files := json_files p;
                            tables := rows |},
                         inr self)
                    end
                  else (p1, inr self)
              end
          end
      end
  end.

(** ** BucketAccess.list_files in full (lines 200-236) *)

(** An entry of [all_files.data.objects], with the fields that the code
    reads; [time_created] is a point on the time line. *)
Record ObjectSummary : Type := {
  o_name : string;
  o_etag : string;
  o_time_created : nat;
  o_md5 : string;
  o_size : nat
}.

(** A row of the data frame: the index is the etag. *)
Record frame_row : Type := {
  r_index : string;
  r_time_created : nat;
  r_md5 : string;
  r_name : string;
  r_size : nat
}.

(** [retdict[k] = v] on a dictionary kept as its items in insertion order:
    an existing key keeps its place and takes the new value. *)
Fixpoint dict_set {V : Type} (k : string) (v : V) (d : list (string * V))
    : list (string * V) :=
  match d with
  | [] => [(k, v)]
  | (k', v') :: d' =>
      if String.eqb k' k then (k', v) :: d' else (k', v') :: dict_set k v d'
  end.

Definition row_of (item : ObjectSummary) : frame_row :=
  {| r_index := o_etag item;
     r_time_created := o_time_created item;
     r_md5 := o_md5 item;
     r_name := o_name item;
     r_size := o_size item |}.

(** The loop that fills [retdict]. *)
Definition retdict (objects : list ObjectSummary) : list (string * frame_row) :=
  fold_left (fun d item => dict_set (o_etag item) (row_of item) d) objects [].

Fixpoint insert_by_time (r : frame_row) (l : list frame_row) : list frame_row :=
  match l with
  | [] => [r]
  | x :: l' =>
      if (r_time_created r <=? r_time_created x)%nat then r :: l
      else x :: insert_by_time r l'
  end.

(** [sort_values(by="time_created", ascending=True)].  Pandas does not fix
    the order of rows with equal [time_created]; this sort keeps them in
    the order of the frame, and no property below depends on that. *)
Definition sort_values (l : list frame_row) : list frame_row :=
  fold_right insert_by_time [] l.

(** [list_files] on what the listing call returned: the frame has the
    column [time_created] exactly when it has a row. *)
Definition list_files_frame (objects : list ObjectSummary) : option (list frame_row) :=
  let pending_files := map snd (retdict objects) in
  match pending_files with
  | [] => None
  | _ :: _ => Some (sort_values pending_files)
  end.

(** The column [name] of that frame, as [bucket_names] has it. *)
Definition frame_names (objects : list ObjectSummary) : list string :=
  match list_files_frame objects with
  | None => []
  | Some rows => map r_name rows
  end.

(** Not later than, on [time_created]. *)
Definition not_later (a b : frame_row) : Prop :=
  r_time_created a <= r_time_created b.

(** ** States and rows that the properties name *)

(** The state once file [fname] has been read. *)
Definition after_read (fname : string) (s : state) : state :=
  {| clock := S (S (clock s)); db := db s;
     calls := (calls s ++ [GetObject fname])%list |}.

(** The files of the batch, for a listing [names] and server list [gs]. *)
Definition batch_files (self : ObjectStore2FN4) (s : state) (names gs : list string)
    : list string :=
  select_files names (to_add self names gs (db s)).

(** The row that the pass writes to [fn4batchload]. *)
Definition batch_check (self : ObjectStore2FN4) (s : state) (names gs : list string)
    : FN4BatchLoadCheck :=
  {| bc_host_name := self_host_name self;
     bc_findneighbour_server_url := self_findneighbour_server_url self;
     check_time := S (clock s);
     bc_batch_size := length (batch_files self s names gs);
     number_in_server := length gs |}.

(** The state when the loop over the files starts. *)
Definition after_batch (self : ObjectStore2FN4) (s : state) (names gs : list string)
    : state :=
  {| clock := S (S (clock s));
     db := (db s ++ [BatchRow (batch_check self s names gs)])%list;
     calls := calls s |}.

(** Following the spec's words (4.4): the identities with at least one
    attempt recorded as completed for this target and host. *)
Definition completed_identities (self : ObjectStore2FN4) (rows : list db_row)
    : gset string :=
  list_to_set
    (omap (fun la =>
             if String.eqb (host_name (la_res la)) (self_host_name self)
                && String.eqb (findneighbour_server_url (la_res la))
                              (self_findneighbour_server_url self)
                && Z.eqb (completed la) 1
             then fn4id (la_res la) else None)
          (attempts rows)).

(** The calls of [time.sleep] among [cs]. *)
Definition sleeps (cs : list call) : list call :=
  List.filter (fun c => match c with Sleep _ => true | _ => false end) cs.

(** The keys of [res] that say where a row comes from: set in the
    dictionary literal and meant to stay as they are. *)
Definition labelled (self : ObjectStore2FN4) (batch_start n_to_add i : nat)
    (fname : string) (res : res_dict) : Prop :=
  host_name res = self_host_name self
  /\ findneighbour_server_url res = self_findneighbour_server_url self
  /\ batch_start_time res = batch_start
  /\ batch_size res = n_to_add
  /\ batch_sample_number res = i
  /\ file_name res = fname.

(** * Properties *)

Local Open Scope list_scope.

(** ** The readers on small inputs *)

Example filename2fn4id_tagged : filename2fn4id "GPAS_SP3|abc" = Some "abc".
Proof. reflexivity. Qed.

Example filename2fn4id_untagged : filename2fn4id "other.fasta" = None.
Proof. reflexivity. Qed.

Example fasta_one :
  Fasta.parse (Fasta.file "GPAS_SP3|abc sample" "ACGT")
  = ([ {| id := "GPAS_SP3|abc"; seq := "ACGT" |} ], None).
Proof. reflexivity. Qed.

Example fasta_two :
  Fasta.parse (String.append (Fasta.file "a" "AC") (Fasta.file "b" "GT"))
  = ([ {| id := "a"; seq := "AC" |}; {| id := "b"; seq := "GT" |} ], None).
Proof. reflexivity. Qed.

Example fasta_none : Fasta.parse "" = ([], None).
Proof. reflexivity. Qed.

Example fasta_refused :
  Fasta.parse (String.append "; a sample" (String Fasta.nl (Fasta.file "a" "AC")))
  = ([], Some ValueError).
Proof. reflexivity. Qed.

(** ** The identity extractor *)

Lemma filename2fn4id_None_iff (x : string) :
  filename2fn4id x = None <-> PyStr.startswith x "GPAS_SP3" = false.
Proof.
  unfold filename2fn4id.
  destruct (PyStr.startswith x "GPAS_SP3"); split; congruence.
Qed.

(** C7. The extractor returns [None] for a name without the tag and never
    raises, but it keeps what follows the first [.]: on
    ["GPAS_SP3|abc.fasta"] it returns ["abc.fasta"], not ["abc"], although
    its docstring promises to remove "anything after a .". *)
Theorem C7_qualifier_is_kept :
  filename2fn4id "GPAS_SP3|abc.fasta" = Some "abc.fasta"
  /\ filename2fn4id "GPAS_SP3|abc.fasta" <> Some "abc"
  /\ PyStr.split_first "." "abc.fasta" = "abc".
Proof. repeat split; try reflexivity. discriminate. Qed.

(** The tag test and the replacement use different strings: a name with the
    tag and no separator is returned whole, and the tag with separator is
    removed wherever it occurs. *)
Example filename2fn4id_no_separator : filename2fn4id "GPAS_SP3abc" = Some "GPAS_SP3abc".
Proof. reflexivity. Qed.

Example filename2fn4id_inner_tag : filename2fn4id "GPAS_SP3|aGPAS_SP3|b" = Some "ab".
Proof. reflexivity. Qed.

(** ** The candidate set *)

Section Candidates.

Variable self : ObjectStore2FN4.

(** The criterion [completed == 1] compares a list with an integer. *)
Lemma completed_criterion_false (l : list (option string)) :
  py_eq (PyStrList l) (PyInt 1) = false.
Proof. reflexivity. Qed.

Lemma filter_none {A} (f : A -> bool) (l : list A) :
  (forall x, f x = false) -> List.filter f l = [].
Proof.
  intros Hf. induction l as [|a l IH]; simpl; [reflexivity|].
  rewrite Hf. exact IH.
Qed.

Lemma completed_list_empty (rows : list db_row) : completed_list self rows = [].
Proof.
  unfold completed_list, query_fn4id. simpl app.
  rewrite filter_none; [reflexivity|].
  intros la. simpl. rewrite !andb_false_r. reflexivity.
Qed.

Lemma set_minus_empty (a : gset string) : set_minus a ∅ = a.
Proof.
  unfold set_minus. apply set_eq. intros x.
  rewrite elem_of_filter. split; [intros [_ Hx]; exact Hx|].
  intros Hx. split; [apply not_elem_of_empty | exact Hx].
Qed.

(** The ledger has no influence on the candidates: they are the listed
    identities that the server does not hold. *)
Lemma to_add_ignores_ledger (names gs : list string) (rows : list db_row) :
  to_add self names gs rows = list_to_set (listed_fn4ids names) ∖ list_to_set gs.
Proof.
  unfold to_add. rewrite completed_list_empty. simpl.
  apply set_minus_empty.
Qed.

End Candidates.

(** C1. The candidates are not S - R - L: an identity with a completed
    attempt in the ledger for this server and host, absent from the server's
    list, is a candidate again, and the pass reads and submits its file. *)
Theorem C1_completed_identity_is_candidate_again :
  let ledger := [AttemptRow Scenario.accepted_abc] in
  let w := Scenario.world [("abc.fasta", Fasta.file "GPAS_SP3|abc" "ACGT")] [] 200 in
  "abc" ∈ completed_identities Scenario.me ledger
  /\ to_add Scenario.me ["abc.fasta"] [] ledger = {[ "abc" ]}
  /\ calls (fst (insert_files_into_server Scenario.me w
                   {| clock := 6; db := ledger; calls := [] |}))
     = [GetObject "abc.fasta"; PostInsert "abc" "ACGT"].
Proof.
  intros ledger w. split; [|split].
  - unfold completed_identities, ledger. simpl. set_solver.
  - rewrite to_add_ignores_ledger. simpl. set_solver.
  - vm_compute. reflexivity.
Qed.

(** ** One file *)

Section OneFile.

Variables (self : ObjectStore2FN4) (e : env).
Variables (batch_start n_to_add i : nat) (fname : string).

Lemma process_file_fetch_raise (s : state) (x : exn) :
  bucket_get e fname = Raise x ->
  process_file self e batch_start n_to_add i fname s
  = ({| clock := S (clock s); db := db s; calls := calls s ++ [GetObject fname] |},
     Raise x).
Proof.
  intros Hget.
  unfold process_file, attempt, load_bucket_into_string, bind, now, called, lift.
  simpl. rewrite Hget. reflexivity.
Qed.

(** An exception of the reader leaves the loop body once the file has
    been read: nothing is posted and no row is written. *)
Lemma process_file_reader_raise (s : state) (content : string)
    (records : list SeqRecord) (x : exn) :
  bucket_get e fname = Ok content ->
  SeqIO_parse e content = (records, Some x) ->
  process_file self e batch_start n_to_add i fname s = (after_read fname s, Raise x).
Proof.
  intros Hget Hparse.
  unfold process_file, attempt, load_bucket_into_string, parse_file, bind, now,
    called, lift.
  simpl. rewrite Hget. simpl. rewrite Hparse. reflexivity.
Qed.

Lemma process_file_fetch_ok (s : state) (content : string) (records : list SeqRecord) :
  bucket_get e fname = Ok content ->
  SeqIO_parse e content = (records, None) ->
  process_file self e batch_start n_to_add i fname s
  = (let '(res, sq) :=
       parse_loop fname records 0
         (new_res self batch_start n_to_add i fname content (clock s) (S (clock s)))
         None in
     res <- derive_fn4id res ;;
     res <- submit e res sq ;;
     commit (AttemptRow {| la_res := res; completed := move_file res |}))
      (after_read fname s).
Proof.
  intros Hget Hparse.
  unfold process_file, attempt, load_bucket_into_string, parse_file, bind, now,
    called, lift.
  simpl. rewrite Hget. simpl. rewrite Hparse. unfold ret.
  destruct (parse_loop _ _ _ _ _) as [res sq].
  destruct (derive_fn4id res _) as [s1 [res1|x]]; reflexivity.
Qed.

(** From the second record on, the loop only overwrites the status. *)
Lemma parse_loop_rest (rest : list SeqRecord) :
  forall (r : SeqRecord) (k : nat) (res : res_dict) (sq : option string),
    parse_loop fname (r :: rest) (S k) res sq
    = (set_parse_status "Failed, multifasta" res, sq).
Proof.
  induction rest as [|r' rest IH]; intros r k res sq.
  - reflexivity.
  - change (parse_loop fname (r :: r' :: rest) (S k) res sq)
      with (parse_loop fname (r' :: rest) (S (S k))
              (set_parse_status "Failed, multifasta" res) sq).
    rewrite IH. reflexivity.
Qed.

Lemma parse_loop_one (r : SeqRecord) (res : res_dict) :
  parse_loop fname [r] 0 res None
  = (set_record (id r) fname (String.length (seq r)) (set_parse_status "Success" res),
     Some (seq r)).
Proof. reflexivity. Qed.

Lemma parse_loop_many (r1 r2 : SeqRecord) (rest : list SeqRecord) (res : res_dict) :
  parse_loop fname (r1 :: r2 :: rest) 0 res None
  = (set_parse_status "Failed, multifasta"
       (set_record (id r1) fname (String.length (seq r1))
          (set_parse_status "Success" res)),
     Some (seq r1)).
Proof.
  change (parse_loop fname (r1 :: r2 :: rest) 0 res None)
    with (parse_loop fname (r2 :: rest) 1
            (set_record (id r1) fname (String.length (seq r1))
               (set_parse_status "Success" res))
            (Some (seq r1))).
  apply parse_loop_rest.
Qed.

(** [completed] as the condition of lines 798-803. *)
Lemma move_file_spec (res : res_dict) :
  (move_file res = 1%Z <->
     parse_status res <> "Success" \/ insert_status_code res = Some 200%Z)
  /\ (move_file res = 0%Z <->
        ~ (parse_status res <> "Success" \/ insert_status_code res = Some 200%Z)).
Proof.
  unfold move_file.
  destruct (String.eqb_spec (parse_status res) "Success") as [Heq|Hne];
    case_bool_decide; simpl; split; split; intros; try discriminate;
    try reflexivity; try tauto.
Qed.

End OneFile.

Section OneFileOutcome.

Variables (self : ObjectStore2FN4) (e : env).
Variables (batch_start n_to_add i : nat) (fname : string).

Ltac run := unfold bind, ret, raise, lift, now, commit, called; simpl.

(** What the empty payload leaves in the ledger. *)
Lemma process_file_no_record (s : state) (content : string) :
  bucket_get e fname = Ok content ->
  SeqIO_parse e content = ([], None) ->
  process_file self e batch_start n_to_add i fname s
  = ({| clock := S (S (clock s));
        db := db s ++
              [AttemptRow
                 {| la_res := new_res self batch_start n_to_add i fname content
                                (clock s) (S (clock s));
                    completed := 1 |}];
        calls := calls s ++ [GetObject fname] |},
     Ok tt).
Proof.
  intros Hget Hparse. rewrite (process_file_fetch_ok _ _ _ _ _ _ _ _ _ Hget Hparse).
  reflexivity.
Qed.

(** A payload with several records is recorded and not submitted. *)
Lemma process_file_multi (s : state) (content : string) (r1 r2 : SeqRecord)
    (rest : list SeqRecord) :
  bucket_get e fname = Ok content ->
  SeqIO_parse e content = (r1 :: r2 :: rest, None) ->
  process_file self e batch_start n_to_add i fname s
  = ({| clock := S (S (clock s));
        db := db s ++
              [AttemptRow
                 {| la_res :=
                      set_parse_status "Failed, multifasta"
                        (set_record (id r1) fname (String.length (seq r1))
                           (set_parse_status "Success"
                              (new_res self batch_start n_to_add i fname content
                                 (clock s) (S (clock s)))));
                    completed := 1 |}];
        calls := calls s ++ [GetObject fname] |},
     Ok tt).
Proof.
  intros Hget Hparse. rewrite (process_file_fetch_ok _ _ _ _ _ _ _ _ _ Hget Hparse).
  rewrite parse_loop_many. reflexivity.
Qed.

(** One record whose id lacks the tag: recorded as failed, not submitted. *)
Lemma process_file_untagged (s : state) (content : string) (r : SeqRecord) :
  bucket_get e fname = Ok content ->
  SeqIO_parse e content = ([r], None) ->
  filename2fn4id (id r) = None ->
  process_file self e batch_start n_to_add i fname s
  = ({| clock := S (S (clock s));
        db := db s ++
              [AttemptRow
                 {| la_res :=
                      set_parse_status "Failed, seqid does not start with GPAS"
                        (set_record (id r) fname (String.length (seq r))
                           (set_parse_status "Success"
                              (new_res self batch_start n_to_add i fname content
                                 (clock s) (S (clock s)))));
                    completed := 1 |}];
        calls := calls s ++ [GetObject fname] |},
     Ok tt).
Proof.
  intros Hget Hparse Hid. rewrite (process_file_fetch_ok _ _ _ _ _ _ _ _ _ Hget Hparse).
  rewrite parse_loop_one. unfold bind, derive_fn4id. simpl. rewrite Hid.
  reflexivity.
Qed.

(** One record whose id has the tag: submitted under the identity taken
    from the record id; the answer's code decides [completed]. *)
Lemma process_file_submitted (s : state) (content : string) (r : SeqRecord)
    (g : string) (resp : response) :
  bucket_get e fname = Ok content ->
  SeqIO_parse e content = ([r], None) ->
  filename2fn4id (id r) = Some g ->
  http_insert e g (seq r) = Ok resp ->
  (status_code resp < 500)%Z ->
  process_file self e batch_start n_to_add i fname s
  = ({| clock := S (S (S (S (clock s))));
        db := db s ++
              [AttemptRow
                 {| la_res :=
                      set_insert (S (S (clock s))) (S (S (S (clock s))))
                        (status_code resp)
                        (set_fn4id (Some g)
                           (set_record (id r) fname (String.length (seq r))
                              (set_parse_status "Success"
                                 (new_res self batch_start n_to_add i fname content
                                    (clock s) (S (clock s))))));
                    completed := if bool_decide (status_code resp = 200%Z)
                                 then 1 else 0 |}];
        calls := calls s ++ [GetObject fname; PostInsert g (seq r)] |},
     Ok tt).
Proof.
  intros Hget Hparse Hid Hpost Hcode.
  rewrite (process_file_fetch_ok _ _ _ _ _ _ _ _ _ Hget Hparse).
  rewrite parse_loop_one. unfold bind, derive_fn4id. simpl. rewrite Hid. simpl.
  unfold submit, _insert, _getpost. run. rewrite Hpost.
  destruct (Z.leb_spec 500 (status_code resp)) as [Hge|_]; [lia|].
  simpl. unfold move_file. simpl.
  rewrite <- app_assoc. simpl.
  repeat f_equal.
  repeat case_bool_decide; congruence.
Qed.

End OneFileOutcome.

(** ** The loop over the selected files *)

Section Loop.

Context {A : Type} (body : nat -> A -> M unit).

Lemma for_enumerate_cons_ok (x : A) (l : list A) (next : nat) (last : option nat)
    (s s1 : state) :
  body next x s = (s1, Ok tt) ->
  for_enumerate body (x :: l) next last s
  = for_enumerate body l (S next) (Some next) s1.
Proof. intros H. simpl. unfold bind. rewrite H. reflexivity. Qed.

(** An exception in the body ends the loop: the files after it are not
    touched. *)
Lemma for_enumerate_cons_raise (x : A) (l : list A) (next : nat) (last : option nat)
    (s s1 : state) (err : exn) :
  body next x s = (s1, Raise err) ->
  for_enumerate body (x :: l) next last s = (s1, Raise err).
Proof. intros H. simpl. unfold bind. rewrite H. reflexivity. Qed.

End Loop.

Section Recording.

Variables (self : ObjectStore2FN4) (e : env).

Lemma derive_fn4id_state (res : res_dict) (s : state) :
  fst (derive_fn4id res s) = s.
Proof.
  unfold derive_fn4id.
  destruct (String.eqb (parse_status res) "Success"); [|reflexivity].
  destruct (seqid res) as [sid|]; [|reflexivity].
  simpl. destruct (filename2fn4id sid); reflexivity.
Qed.

Lemma raise_for_status_state (r : response) (s : state) :
  fst (raise_for_status r s) = s.
Proof. unfold raise_for_status. destruct (_ && _); reflexivity. Qed.

Lemma getpost_state (answer : result response) (s : state) :
  fst (_getpost answer s) = s.
Proof.
  unfold _getpost, bind, lift. destruct answer as [r|x]; [|reflexivity].
  destruct (500 <=? status_code r)%Z; [|reflexivity].
  pose proof (raise_for_status_state r s) as H.
  destruct (raise_for_status r s) as [s' [[]|x]]; simpl in *; congruence.
Qed.

Lemma guids_state (s : state) : fst (guids e s) = s.
Proof.
  unfold guids, _decode, bind.
  pose proof (getpost_state (http_guids e) s) as H.
  destruct (_getpost (http_guids e) s) as [s' [r|x]]; simpl in *; [|exact H].
  subst s'. pose proof (raise_for_status_state r s) as H.
  destruct (raise_for_status r s) as [s' [[]|x]]; simpl in *; exact H.
Qed.

Lemma submit_db (res : res_dict) (sq : option string) (s : state) :
  db (fst (submit e res sq s)) = db s.
Proof.
  unfold submit. destruct (fn4id res) as [g|]; [|reflexivity].
  unfold bind, now, _insert. simpl.
  destruct sq as [sq|]; [|reflexivity].
  unfold bind, called. simpl.
  match goal with |- context [_getpost ?a ?s0] =>
    pose proof (getpost_state a s0) as H;
    destruct (_getpost a s0) as [s' [r|x]] end;
    simpl in *; subst s'; reflexivity.
Qed.

(** An item that reaches the recording step adds one row, whose
    [completed] is [move_file]; an item that raises adds none. *)
Lemma process_file_outcome (batch_start n_to_add i : nat) (fname : string) (s : state) :
  match process_file self e batch_start n_to_add i fname s with
  | (s', Ok _) =>
      exists res, db s' = db s ++ [AttemptRow {| la_res := res; completed := move_file res |}]
  | (s', Raise _) => db s' = db s
  end.
Proof.
  destruct (bucket_get e fname) as [content|x] eqn:Hget.
  - destruct (SeqIO_parse e content) as [records [x|]] eqn:Hparse.
    { rewrite (process_file_reader_raise _ _ _ _ _ _ _ _ _ _ Hget Hparse). reflexivity. }
    rewrite (process_file_fetch_ok _ _ _ _ _ _ _ _ _ Hget Hparse).
    destruct (parse_loop _ _ _ _ _) as [res sq]. unfold bind.
    pose proof (derive_fn4id_state res (after_read fname s)) as Hd.
    destruct (derive_fn4id res (after_read fname s)) as [s1 [res1|x]];
      simpl in Hd; subst s1; [|reflexivity].
    pose proof (submit_db res1 sq (after_read fname s)) as Hs.
    destruct (submit e res1 sq (after_read fname s)) as [s2 [res2|x]];
      simpl in Hs; [|exact Hs].
    simpl. exists res2. rewrite Hs. reflexivity.
  - rewrite (process_file_fetch_raise _ _ _ _ _ _ _ _ Hget). reflexivity.
Qed.

(** The loop adds attempt rows only, at most one per file, and one per
    file when it runs to its end. *)
Lemma for_enumerate_db (batch_start n_to_add : nat) (l : list string) :
  forall (next : nat) (last : option nat) (s : state),
  exists rows : list FN4LoadAttempt,
    db (fst (for_enumerate (process_file self e batch_start n_to_add) l next last s))
    = db s ++ map AttemptRow rows
    /\ length rows <= length l
    /\ (forall v,
           snd (for_enumerate (process_file self e batch_start n_to_add) l next last s)
           = Ok v -> length rows = length l).
Proof.
  induction l as [|f l IH]; intros next last s.
  - exists []. simpl. rewrite app_nil_r. repeat split; auto.
  - pose proof (process_file_outcome batch_start n_to_add next f s) as Hf.
    destruct (process_file self e batch_start n_to_add next f s) as [s1 [[]|x]] eqn:Hp.
    + rewrite (for_enumerate_cons_ok _ _ _ _ _ _ _ Hp).
      destruct Hf as [res Hres].
      destruct (IH (S next) (Some next) s1) as (rows & Hdb & Hle & Hok).
      exists ({| la_res := res; completed := move_file res |} :: rows).
      rewrite Hdb, Hres, <- app_assoc. simpl. repeat split; [lia|].
      intros v Hv. rewrite (Hok v Hv). reflexivity.
    + rewrite (for_enumerate_cons_raise _ _ _ _ _ _ _ _ Hp).
      exists []. simpl. rewrite app_nil_r. repeat split; [exact Hf | lia | discriminate].
Qed.

End Recording.

(** C4. The written row has [completed = 1] exactly when the parse status
    is not Success or the insert status code is 200, and [completed = 0]
    otherwise; an item that raises before the recording step writes no
    row. *)
Theorem C4_completed_iff_failed_parse_or_accepted
    (self : ObjectStore2FN4) (e : env) (batch_start n_to_add i : nat)
    (fname : string) (s : state) :
  match process_file self e batch_start n_to_add i fname s with
  | (s', Ok _) =>
      exists row : FN4LoadAttempt,
        db s' = db s ++ [AttemptRow row]
        /\ (completed row = 1%Z <->
              parse_status (la_res row) <> "Success"
              \/ insert_status_code (la_res row) = Some 200%Z)
        /\ (completed row = 0%Z <->
              ~ (parse_status (la_res row) <> "Success"
                 \/ insert_status_code (la_res row) = Some 200%Z))
  | (s', Raise _) => db s' = db s
  end.
Proof.
  pose proof (process_file_outcome self e batch_start n_to_add i fname s) as H.
  destruct (process_file self e batch_start n_to_add i fname s) as [s' [[]|x]];
    [|exact H].
  destruct H as [res Hres].
  exists {| la_res := res; completed := move_file res |}.
  split; [exact Hres|]. simpl. apply move_file_spec.
Qed.

(** ** The content parser *)

(** C8, as the claim has it, fails: the parser can raise.  The text of
    [abc.fasta] opens with a comment line and the reader refuses it with
    ValueError.  Nothing catches the error: the file gets no status and no
    row, nothing is posted, and the pass and the poll loop end with it. *)
Lemma C8_reader_fault_is_raised :
  let text :=
    String.append "; a sample" (String Fasta.nl (Fasta.file "GPAS_SP3|abc" "ACGT")) in
  let w := Scenario.world [("abc.fasta", text)] [] 200 in
  let out := process_file Scenario.me w 0 1 0 "abc.fasta" Scenario.start in
  let pass := insert_files_into_server Scenario.me w Scenario.start in
  SeqIO_parse w text = ([], Some ValueError)
  /\ snd out = Raise ValueError
  /\ db (fst out) = []
  /\ calls (fst out) = [GetObject "abc.fasta"]
  /\ snd pass = Raise ValueError
  /\ attempts (db (fst pass)) = []
  /\ snd (poll_loop Scenario.me [w; w] Scenario.start) = Raise ValueError.
Proof. vm_compute. repeat split. Qed.

(** C8, amended. When the reader runs to its end on the text of a file, the
    parse loop classifies what it yielded and does not raise: no record
    leaves the status ["Failed"]; one record gives ["Success"] with the
    length of its sequence and its id; two or more give
    ["Failed, multifasta"], and the file is then recorded without any insert
    call.  When the reader raises, the error leaves the loop body: the file
    has been read, nothing is posted, no row is written, and the files
    after it in the batch are not touched. *)
Theorem C8_parse_loop_classifies
    (self : ObjectStore2FN4) (e : env) (batch_start n_to_add i : nat)
    (fname : string) (s : state) (content : string) :
  bucket_get e fname = Ok content ->
  let res0 := new_res self batch_start n_to_add i fname content (clock s) (S (clock s)) in
  match SeqIO_parse e content with
  | (_, Some err) =>
      process_file self e batch_start n_to_add i fname s = (after_read fname s, Raise err)
      /\ forall (rest : list string) (last : option nat),
           for_enumerate (process_file self e batch_start n_to_add) (fname :: rest) i last s
           = (after_read fname s, Raise err)
  | (records, None) =>
      let out := fst (parse_loop fname records 0 res0 None) in
      parse_file e fname content res0 (after_read fname s)
      = (after_read fname s, Ok (parse_loop fname records 0 res0 None))
      /\ match records with
         | [] => parse_status out = "Failed"
         | [r] =>
             parse_status out = "Success"
             /\ len_seq out = Some (String.length (seq r))
             /\ seqid out = Some (id r)
         | _ :: _ :: _ =>
             parse_status out = "Failed, multifasta"
             /\ exists row : FN4LoadAttempt,
                  process_file self e batch_start n_to_add i fname s
                  = ({| clock := S (S (clock s));
                        db := db s ++ [AttemptRow row];
                        calls := calls s ++ [GetObject fname] |}, Ok tt)
                  /\ parse_status (la_res row) = "Failed, multifasta"
                  /\ insert_status_code (la_res row) = None
                  /\ completed row = 1%Z
         end
  end.
Proof.
  intros Hget res0.
  destruct (SeqIO_parse e content) as [records [err|]] eqn:Hparse.
  - pose proof (process_file_reader_raise self e batch_start n_to_add i fname s content
                  records err Hget Hparse) as Hp.
    split; [exact Hp|]. intros rest last.
    apply for_enumerate_cons_raise. exact Hp.
  - split; [unfold parse_file; rewrite Hparse; reflexivity|].
    destruct records as [|r1 [|r2 rest]].
    + reflexivity.
    + rewrite parse_loop_one. repeat split.
    + rewrite parse_loop_many. split; [reflexivity|].
      eexists. split.
      * apply (process_file_multi self e batch_start n_to_add i fname s content r1 r2 rest);
          assumption.
      * repeat split.
Qed.

Lemma C8_parse_loop_classifies_witness :
  let text := String.append (Fasta.file "GPAS_SP3|a" "AC") (Fasta.file "GPAS_SP3|b" "GT") in
  let w := Scenario.world [("ab.fasta", text)] [] 200 in
  exists row : FN4LoadAttempt,
    process_file Scenario.me w 0 1 0 "ab.fasta" Scenario.start
    = ({| clock := 2; db := [AttemptRow row]; calls := [GetObject "ab.fasta"] |}, Ok tt)
    /\ parse_status (la_res row) = "Failed, multifasta"
    /\ insert_status_code (la_res row) = None
    /\ completed row = 1%Z.
Proof.
  intros text w.
  exact (proj2 (proj2 (C8_parse_loop_classifies Scenario.me w 0 1 0 "ab.fasta"
                         Scenario.start text eq_refl))).
Defined.

(** The three payloads of the spec's parser boundary. *)
Example parse_status_of_payloads :
  let status text :=
    parse_status
      (fst (parse_loop "f.fasta" (fst (Fasta.parse text)) 0
              (new_res Scenario.me 0 1 0 "f.fasta" text 0 1) None)) in
  status "" = "Failed"
  /\ status (Fasta.file "GPAS_SP3|a" "ACGT") = "Success"
  /\ status (String.append (Fasta.file "a" "AC") (Fasta.file "b" "GT"))
     = "Failed, multifasta".
Proof. repeat split. Qed.

(** ** Identity of a parsed file *)

(** C2, as the claim has it, fails: file [abc.fasta] holds one record with
    id [GPAS_SP3|xyz]; neither identity derived from the file name equals
    the one derived from the record, and the file is submitted as [xyz]
    with status ["Success"]. *)
Lemma C2_mismatch_is_submitted :
  let w := Scenario.world [("abc.fasta", Fasta.file "GPAS_SP3|xyz" "ACGT")] [] 200 in
  let s' := fst (process_file Scenario.me w 0 1 0 "abc.fasta" Scenario.start) in
  filename2fn4id "abc.fasta" = None
  /\ PyStr.split_first "." "abc.fasta" = "abc"
  /\ calls s' = [GetObject "abc.fasta"; PostInsert "xyz" "ACGT"]
  /\ map (fun la => (parse_status (la_res la), fn4id (la_res la), completed la))
         (attempts (db s'))
     = [("Success", Some "xyz", 1%Z)].
Proof. repeat split. Qed.

(** C2, amended. For a file with exactly one record the identity comes from
    the record id alone.  When the id lacks the tag, the status becomes
    ["Failed, seqid does not start with GPAS"], nothing is submitted and the
    row has [completed = 1].  When it has the tag, the record is submitted
    under the identity derived from its id, whatever the file is called. *)
Theorem C2_identity_from_record_id
    (self : ObjectStore2FN4) (e : env) (batch_start n_to_add i : nat)
    (fname : string) (s : state) (content : string) (r : SeqRecord) :
  bucket_get e fname = Ok content ->
  SeqIO_parse e content = ([r], None) ->
  let out := process_file self e batch_start n_to_add i fname s in
  match filename2fn4id (id r) with
  | None =>
      exists row : FN4LoadAttempt,
        out = ({| clock := S (S (clock s));
                  db := db s ++ [AttemptRow row];
                  calls := calls s ++ [GetObject fname] |}, Ok tt)
        /\ parse_status (la_res row) = "Failed, seqid does not start with GPAS"
        /\ fn4id (la_res row) = None
        /\ insert_status_code (la_res row) = None
        /\ completed row = 1%Z
  | Some g =>
      calls (fst out) = calls s ++ [GetObject fname; PostInsert g (seq r)]
  end.
Proof.
  intros Hget Hparse out. subst out.
  destruct (filename2fn4id (id r)) as [g|] eqn:Hid.
  - rewrite (process_file_fetch_ok _ _ _ _ _ _ _ _ _ Hget Hparse), parse_loop_one.
    unfold bind, derive_fn4id. simpl. rewrite Hid. simpl.
    unfold submit, _insert, bind, now, called. simpl.
    match goal with |- context [_getpost ?a ?s0] =>
      pose proof (getpost_state a s0) as Hst;
      destruct (_getpost a s0) as [s1 [resp|x]] end;
      simpl in Hst; subst s1; simpl; rewrite <- app_assoc; reflexivity.
  - eexists. split.
    + apply process_file_untagged; eassumption.
    + repeat split.
Qed.

Lemma C2_identity_from_record_id_witness :
  let w := Scenario.world [("abc.fasta", Fasta.file "GPAS_SP3|xyz" "ACGT")] [] 200 in
  calls (fst (process_file Scenario.me w 0 1 0 "abc.fasta" Scenario.start))
  = [GetObject "abc.fasta"; PostInsert "xyz" "ACGT"].
Proof.
  intros w.
  exact (C2_identity_from_record_id Scenario.me w 0 1 0 "abc.fasta" Scenario.start
           (Fasta.file "GPAS_SP3|xyz" "ACGT")
           {| id := "GPAS_SP3|xyz"; seq := "ACGT" |} eq_refl eq_refl).
Defined.

(** ** Rejected submissions *)

(** C3, as the claim has it, fails: the server answers the insert of a
    well-formed file with 404 and the row is written with
    [completed = 0]. *)
Lemma C3_rejection_is_not_completed :
  let w := Scenario.world [("abc.fasta", Fasta.file "GPAS_SP3|abc" "ACGT")] [] 404 in
  let s' := fst (process_file Scenario.me w 0 1 0 "abc.fasta" Scenario.start) in
  map (fun la => (parse_status (la_res la), insert_status_code (la_res la), completed la))
      (attempts (db s'))
  = [("Success", Some 404%Z, 0%Z)].
Proof. reflexivity. Qed.

(** C3, amended. When the parse succeeds and the insert is answered with a
    code below 500 other than 200, the row is written with that code and
    [completed = 0]. *)
Theorem C3_rejection_leaves_completed_0
    (self : ObjectStore2FN4) (e : env) (batch_start n_to_add i : nat)
    (fname : string) (s : state) (content : string) (r : SeqRecord)
    (g : string) (resp : response) :
  bucket_get e fname = Ok content ->
  SeqIO_parse e content = ([r], None) ->
  filename2fn4id (id r) = Some g ->
  http_insert e g (seq r) = Ok resp ->
  (status_code resp < 500)%Z ->
  status_code resp <> 200%Z ->
  exists (s' : state) (row : FN4LoadAttempt),
    process_file self e batch_start n_to_add i fname s = (s', Ok tt)
    /\ db s' = db s ++ [AttemptRow row]
    /\ parse_status (la_res row) = "Success"
    /\ insert_status_code (la_res row) = Some (status_code resp)
    /\ completed row = 0%Z.
Proof.
  intros Hget Hparse Hid Hpost Hlt Hne.
  eexists. eexists. split.
  - apply process_file_submitted; eassumption.
  - simpl. repeat split. case_bool_decide; [contradiction | reflexivity].
Qed.

Lemma C3_rejection_leaves_completed_0_witness :
  let w := Scenario.world [("abc.fasta", Fasta.file "GPAS_SP3|abc" "ACGT")] [] 409 in
  exists (s' : state) (row : FN4LoadAttempt),
    process_file Scenario.me w 0 1 0 "abc.fasta" Scenario.start = (s', Ok tt)
    /\ db s' = db Scenario.start ++ [AttemptRow row]
    /\ parse_status (la_res row) = "Success"
    /\ insert_status_code (la_res row) = Some 409%Z
    /\ completed row = 0%Z.
Proof.
  intros w.
  apply (C3_rejection_leaves_completed_0 Scenario.me w 0 1 0 "abc.fasta" Scenario.start
           (Fasta.file "GPAS_SP3|abc" "ACGT")
           {| id := "GPAS_SP3|abc"; seq := "ACGT" |} "abc"
           {| status_code := 409; json := Ok [] |});
    try reflexivity; discriminate.
Defined.

(** ** Fetch faults *)

(** C6, as the claim has it, fails: [gone.fasta] is listed and cannot be
    read.  The pass raises the error of the read, the ledger holds the batch
    row and no attempt row, [abc.fasta] is never read, and the poll loop
    ends with the same error. *)
Lemma C6_fetch_fault_ends_the_pass :
  let w := Scenario.world_with_missing "gone.fasta"
             [("abc.fasta", Fasta.file "GPAS_SP3|abc" "ACGT")] [] 200 in
  let out := insert_files_into_server Scenario.me w Scenario.start in
  snd out = Raise (ServiceError "ObjectNotFound")
  /\ calls (fst out) = [GetObject "gone.fasta"]
  /\ attempts (db (fst out)) = []
  /\ length (batches (db (fst out))) = 1
  /\ snd (poll_loop Scenario.me [w; w] Scenario.start)
     = Raise (ServiceError "ObjectNotFound").
Proof. vm_compute. repeat split. Qed.

(** ** One pass *)

Section Pass.

Variables (self : ObjectStore2FN4) (e : env).

Lemma guids_ok_state (s s' : state) (gs : list string) :
  guids e s = (s', Ok gs) -> s' = s.
Proof. intros H. pose proof (guids_state e s) as Hs. rewrite H in Hs. exact Hs. Qed.

Lemma pass_empty_listing (s : state) :
  bucket_names e = Ok [] ->
  insert_files_into_server self e s = (s, Ok (PyDict {[ "added" := 0%Z ]})).
Proof.
  intros Hl. unfold insert_files_into_server, list_files, bind, lift.
  rewrite Hl. reflexivity.
Qed.

Lemma pass_listed (s s' : state) (names gs : list string) :
  bucket_names e = Ok names ->
  names <> [] ->
  guids e s = (s', Ok gs) ->
  insert_files_into_server self e s
  = (i <- for_enumerate
            (process_file self e (clock s) (size (to_add self names gs (db s))))
            (batch_files self s names gs) 0 None ;;
     match i with
     | None => raise (UnboundLocalError "i")
     | Some i => ret (PyDict {[ "added" := Z.of_nat i ]})
     end) (after_batch self s names gs).
Proof.
  intros Hl Hne Hg. pose proof (guids_ok_state _ _ _ Hg) as ->.
  unfold insert_files_into_server, list_files. unfold bind at 1 2. unfold lift.
  rewrite Hl. destruct names as [|n names']; [contradiction|].
  unfold ret at 1. unfold bind at 1. rewrite Hg.
  reflexivity.
Qed.

(** Whatever the pass returns is a dictionary. *)
Lemma pass_returns_dict (s : state) (v : pyval) :
  snd (insert_files_into_server self e s) = Ok v -> exists d, v = PyDict d.
Proof.
  unfold insert_files_into_server, list_files. unfold bind at 1 2. unfold lift.
  destruct (bucket_names e) as [[|n names]|x]; simpl.
  - intros [= <-]. eauto.
  - unfold bind at 1. destruct (guids e s) as [s1 [gs|x]]; [|discriminate].
    unfold get_db, now, commit. unfold bind at 1 2 3 4. simpl.
    unfold bind.
    destruct (for_enumerate _ _ _ _ _) as [s2 [[i|]|x]]; simpl;
      try discriminate.
    intros [= <-]. eauto.
  - discriminate.
Qed.

Lemma select_files_empty (names : list string) : select_files names ∅ = [].
Proof.
  unfold select_files. apply filter_none. intros name.
  apply bool_decide_eq_false. apply not_elem_of_empty.
Qed.

End Pass.

Section LoopFaults.

Context {A : Type} (body : nat -> A -> M unit).

Lemma for_enumerate_app (l1 l2 : list A) :
  forall (next : nat) (last : option nat) (s : state),
    for_enumerate body (l1 ++ l2) next last s
    = match for_enumerate body l1 next last s with
      | (s1, Ok last1) => for_enumerate body l2 (next + length l1) last1 s1
      | (s1, Raise err) => (s1, Raise err)
      end.
Proof.
  induction l1 as [|x l1 IH]; intros next last s.
  - simpl. rewrite Nat.add_0_r. reflexivity.
  - destruct (body next x s) as [s1 [[]|err]] eqn:Hb.
    + rewrite <- app_comm_cons.
      rewrite (for_enumerate_cons_ok body x (l1 ++ l2) next last s s1 Hb).
      rewrite (for_enumerate_cons_ok body x l1 next last s s1 Hb).
      rewrite IH. simpl length. rewrite Nat.add_succ_r. reflexivity.
    + rewrite <- app_comm_cons.
      rewrite (for_enumerate_cons_raise body x (l1 ++ l2) next last s s1 err Hb).
      rewrite (for_enumerate_cons_raise body x l1 next last s s1 err Hb).
      reflexivity.
Qed.

End LoopFaults.

(** An exception of the pass is an exception of the poll loop. *)
Lemma poll_loop_raise (self : ObjectStore2FN4) (e : env) (worlds : list env)
    (s s' : state) (err : exn) :
  insert_files_into_server self e s = (s', Raise err) ->
  poll_loop self (e :: worlds) s = (s', Raise err).
Proof.
  intros H. simpl. unfold poll_once. unfold bind. rewrite H. reflexivity.
Qed.

(** C6, amended. A failing read is not caught.  Whatever came before it in
    the batch, the pass stops at that file and raises the error of the read:
    it writes no row for the file and touches no later file, and the poll
    loop ends with the same error. *)
Theorem C6_fetch_fault_propagates
    (self : ObjectStore2FN4) (e : env) (s s' s1 : state) (names gs : list string)
    (before after : list string) (fname : string) (err : exn) (last1 : option nat) :
  bucket_names e = Ok names ->
  names <> [] ->
  guids e s = (s', Ok gs) ->
  batch_files self s names gs = before ++ fname :: after ->
  for_enumerate (process_file self e (clock s) (size (to_add self names gs (db s))))
    before 0 None (after_batch self s names gs)
  = (s1, Ok last1) ->
  bucket_get e fname = Raise err ->
  let stopped :=
    {| clock := S (clock s1); db := db s1; calls := calls s1 ++ [GetObject fname] |} in
  insert_files_into_server self e s = (stopped, Raise err)
  /\ forall worlds : list env, poll_loop self (e :: worlds) s = (stopped, Raise err).
Proof.
  intros Hl Hne Hg Hfiles Hbefore Hget stopped.
  assert (Hpass : insert_files_into_server self e s = (stopped, Raise err)).
  { rewrite (pass_listed self e s s' names gs Hl Hne Hg), Hfiles.
    unfold bind. rewrite for_enumerate_app, Hbefore.
    rewrite (for_enumerate_cons_raise _ fname after _ last1 s1 stopped err);
      [reflexivity|].
    apply process_file_fetch_raise. exact Hget. }
  split; [exact Hpass|].
  intros worlds. apply poll_loop_raise. exact Hpass.
Qed.

Lemma C6_fetch_fault_propagates_witness :
  let w := Scenario.world_with_missing "gone.fasta"
             [("abc.fasta", Fasta.file "GPAS_SP3|abc" "ACGT")] [] 200 in
  let stopped :=
    {| clock := 3;
       db := [BatchRow (batch_check Scenario.me Scenario.start
                          ["gone.fasta"; "abc.fasta"] [])];
       calls := [GetObject "gone.fasta"] |} in
  insert_files_into_server Scenario.me w Scenario.start
  = (stopped, Raise (ServiceError "ObjectNotFound"))
  /\ forall worlds : list env,
       poll_loop Scenario.me (w :: worlds) Scenario.start
       = (stopped, Raise (ServiceError "ObjectNotFound")).
Proof.
  intros w stopped.
  apply (C6_fetch_fault_propagates Scenario.me w Scenario.start Scenario.start
           (after_batch Scenario.me Scenario.start ["gone.fasta"; "abc.fasta"] [])
           ["gone.fasta"; "abc.fasta"] [] [] ["abc.fasta"] "gone.fasta"
           (ServiceError "ObjectNotFound") None);
    try reflexivity. discriminate.
Defined.

(** ** The batch checkpoint *)

(** C9, as the claim has it, fails: in a pass over one new file the batch
    row is committed before the attempt row, and a pass over an empty
    bucket commits no batch row. *)
Lemma C9_checkpoint_first_or_absent :
  let w := Scenario.world [("abc.fasta", Fasta.file "GPAS_SP3|abc" "ACGT")] [] 200 in
  let kind r := match r with BatchRow _ => "batch" | AttemptRow _ => "attempt" end in
  map kind (db (fst (insert_files_into_server Scenario.me w Scenario.start)))
  = ["batch"; "attempt"]
  /\ insert_files_into_server Scenario.me (Scenario.world [] [] 200) Scenario.start
     = (Scenario.start, Ok (PyDict {[ "added" := 0%Z ]})).
Proof. split; vm_compute; reflexivity. Qed.

(** C9, amended. A pass over an empty listing commits nothing.  A pass with
    a non-empty listing and an answer to the guids request commits exactly
    one batch row, before the attempt rows of the pass; its [batch_size] is
    the number of selected files, its [number_in_server] the number of guids
    received; the pass adds at most one attempt row per selected file, and
    one per file when it returns. *)
Theorem C9_checkpoint_precedes_attempts
    (self : ObjectStore2FN4) (e : env) (s : state) (names : list string) :
  bucket_names e = Ok names ->
  match names with
  | [] => db (fst (insert_files_into_server self e s)) = db s
  | _ :: _ =>
      forall (s' : state) (gs : list string),
        guids e s = (s', Ok gs) ->
        exists (bc : FN4BatchLoadCheck) (rows : list FN4LoadAttempt),
          db (fst (insert_files_into_server self e s))
          = db s ++ BatchRow bc :: map AttemptRow rows
          /\ bc_batch_size bc = length (select_files names (to_add self names gs (db s)))
          /\ number_in_server bc = length gs
          /\ length rows <= bc_batch_size bc
          /\ (forall v, snd (insert_files_into_server self e s) = Ok v ->
                        length rows = bc_batch_size bc)
  end.
Proof.
  intros Hl. destruct names as [|n names'].
  - rewrite (pass_empty_listing self e s Hl). reflexivity.
  - set (names := n :: names') in *. intros s' gs Hg.
    assert (Hne : names <> []) by discriminate.
    rewrite (pass_listed self e s s' names gs Hl Hne Hg).
    destruct (for_enumerate_db self e (clock s) (size (to_add self names gs (db s)))
                (batch_files self s names gs) 0 None (after_batch self s names gs))
      as (rows & Hdb & Hle & Hok).
    exists (batch_check self s names gs), rows.
    unfold bind.
    destruct (for_enumerate _ _ _ _ _) as [s2 [i|x]]; simpl in Hdb, Hok |- *.
    + assert (Hlen : length rows = length (batch_files self s names gs))
        by (apply (Hok i); reflexivity).
      destruct i as [i|]; simpl; rewrite Hdb, <- app_assoc; simpl;
        repeat split; auto; lia.
    + rewrite Hdb, <- app_assoc. simpl. repeat split; auto. discriminate.
Qed.

Lemma C9_checkpoint_precedes_attempts_witness :
  let w := Scenario.world [("abc.fasta", Fasta.file "GPAS_SP3|abc" "ACGT")] ["old"] 200 in
  exists (bc : FN4BatchLoadCheck) (rows : list FN4LoadAttempt),
    db (fst (insert_files_into_server Scenario.me w Scenario.start))
    = db Scenario.start ++ BatchRow bc :: map AttemptRow rows
    /\ bc_batch_size bc
       = length (select_files ["abc.fasta"]
                   (to_add Scenario.me ["abc.fasta"] ["old"] (db Scenario.start)))
    /\ number_in_server bc = length ["old"]
    /\ length rows <= bc_batch_size bc
    /\ (forall v, snd (insert_files_into_server Scenario.me w Scenario.start) = Ok v ->
                  length rows = bc_batch_size bc).
Proof.
  intros w.
  exact (C9_checkpoint_precedes_attempts Scenario.me w Scenario.start ["abc.fasta"]
           eq_refl Scenario.start ["old"] eq_refl).
Defined.

(** ** The return value of a pass *)

(** C10. When files are listed and none is left to add, the pass commits
    its batch row and then raises UnboundLocalError at [return {"added": i}]:
    the loop never ran, so [i] was never bound. *)
Theorem C10_no_candidate_raises_unbound_i
    (self : ObjectStore2FN4) (e : env) (s s' : state) (names gs : list string) :
  bucket_names e = Ok names ->
  names <> [] ->
  guids e s = (s', Ok gs) ->
  to_add self names gs (db s) = ∅ ->
  insert_files_into_server self e s
  = (after_batch self s names gs, Raise (UnboundLocalError "i")).
Proof.
  intros Hl Hne Hg Hempty.
  rewrite (pass_listed self e s s' names gs Hl Hne Hg).
  unfold batch_files. rewrite Hempty, select_files_empty. reflexivity.
Qed.

Lemma C10_no_candidate_raises_unbound_i_witness :
  let w := Scenario.world [("abc.fasta", Fasta.file "GPAS_SP3|abc" "ACGT")] ["abc"] 200 in
  insert_files_into_server Scenario.me w Scenario.start
  = (after_batch Scenario.me Scenario.start ["abc.fasta"] ["abc"],
     Raise (UnboundLocalError "i")).
Proof.
  intros w.
  apply (C10_no_candidate_raises_unbound_i Scenario.me w Scenario.start Scenario.start
           ["abc.fasta"] ["abc"]); [reflexivity | discriminate | reflexivity |].
  rewrite to_add_ignores_ledger. simpl. set_solver.
Defined.

(** ** The poll loop *)

(** The test [n_inserted == 0] compares a dictionary with an integer. *)
Lemma dict_is_not_zero (d : gmap string Z) : py_eq (PyDict d) (PyInt 0) = false.
Proof. reflexivity. Qed.

(** The sleep branch is never taken: a turn of the loop leaves the state
    that the pass left, and raises what the pass raised. *)
Lemma poll_once_never_sleeps (self : ObjectStore2FN4) (e : env) (s : state) :
  poll_once self e s
  = (fst (insert_files_into_server self e s),
     match snd (insert_files_into_server self e s) with
     | Ok _ => Ok tt
     | Raise err => Raise err
     end).
Proof.
  unfold poll_once, bind.
  pose proof (pass_returns_dict self e s) as Hd.
  destruct (insert_files_into_server self e s) as [s1 [v|err]]; simpl in *;
    [|reflexivity].
  destruct (Hd v eq_refl) as [d ->]. reflexivity.
Qed.

(** C5. After a pass that found nothing the loop does not sleep: over an
    empty bucket the pass returns [{"added": 0}], the comparison with [0]
    is false, and three turns of the loop make no call at all. *)
Theorem C5_idle_pass_does_not_sleep :
  let w := Scenario.world [] [] 200 in
  insert_files_into_server Scenario.me w Scenario.start
  = (Scenario.start, Ok (PyDict {[ "added" := 0%Z ]}))
  /\ poll_once Scenario.me w Scenario.start = (Scenario.start, Ok tt)
  /\ poll_loop Scenario.me [w; w; w] Scenario.start = (Scenario.start, Ok tt).
Proof. repeat split. Qed.

(** After a pass that processed files the loop goes on at once. *)
Example busy_pass_does_not_sleep :
  let w := Scenario.world [("abc.fasta", Fasta.file "GPAS_SP3|abc" "ACGT")] [] 200 in
  calls (fst (poll_once Scenario.me w Scenario.start))
  = [GetObject "abc.fasta"; PostInsert "abc" "ACGT"]
  /\ snd (poll_once Scenario.me w Scenario.start) = Ok tt.
Proof. vm_compute. split; reflexivity. Qed.


(** * Further properties of the code *)

(** ** HTTP helpers *)

Lemma getpost_run (answer : result response) (s : state) :
  _getpost answer s
  = (s, match answer with
        | Raise err => Raise err
        | Ok r =>
            if (500 <=? status_code r)%Z && (status_code r <? 600)%Z
            then Raise (HTTPError (status_code r))
            else Ok r
        end).
Proof.
  unfold _getpost, raise_for_status, bind, lift, raise, ret.
  destruct answer as [r|err]; [|reflexivity].
  destruct (Z.leb_spec 500 (status_code r)) as [H5|H5];
    destruct (Z.leb_spec 400 (status_code r)) as [H4|H4];
    destruct (Z.ltb_spec (status_code r) 600) as [H6|H6];
    simpl; try reflexivity; lia.
Qed.

Lemma guids_run (e : env) (s : state) :
  guids e s
  = (s, match http_guids e with
        | Raise err => Raise err
        | Ok r =>
            if (400 <=? status_code r)%Z && (status_code r <? 600)%Z
            then Raise (HTTPError (status_code r))
            else json r
        end).
Proof.
  unfold guids, bind. rewrite getpost_run.
  destruct (http_guids e) as [r|err]; [|reflexivity].
  unfold _decode, raise_for_status, bind, raise, ret, lift.
  destruct (Z.leb_spec 500 (status_code r)) as [H5|H5];
    destruct (Z.leb_spec 400 (status_code r)) as [H4|H4];
    destruct (Z.ltb_spec (status_code r) 600) as [H6|H6];
    simpl; try reflexivity; try lia;
    destruct (Z.leb_spec 400 (status_code r));
    destruct (Z.ltb_spec (status_code r) 600);
    simpl; try reflexivity; lia.
Qed.

(** [_getpost] raises for the codes 500 to 599 and for nothing else: every
    other answer of the server, the 4xx codes among them, is handed back to
    the caller, and an error of the session call is passed on.  The state
    is never touched. *)
Theorem getpost_raises_exactly_on_5xx (answer : result response) (s : state) :
  (forall err, answer = Raise err -> _getpost answer s = (s, Raise err))
  /\ (forall r, answer = Ok r ->
        ((500 <= status_code r < 600)%Z ->
         _getpost answer s = (s, Raise (HTTPError (status_code r))))
        /\ (~ (500 <= status_code r < 600)%Z -> _getpost answer s = (s, Ok r))).
Proof.
  split.
  - intros err ->. apply getpost_run.
  - intros r ->. rewrite getpost_run.
    destruct (Z.leb_spec 500 (status_code r)); destruct (Z.ltb_spec (status_code r) 600);
      simpl; split; intros; try reflexivity; lia.
Qed.

Lemma getpost_raises_exactly_on_5xx_witness :
  _getpost (Ok {| status_code := 404; json := Ok [] |}) Scenario.start
  = (Scenario.start, Ok {| status_code := 404; json := Ok [] |})
  /\ _getpost (Ok {| status_code := 502; json := Ok [] |}) Scenario.start
     = (Scenario.start, Raise (HTTPError 502)).
Proof.
  split.
  - apply (proj2 (proj2 (getpost_raises_exactly_on_5xx
                           (Ok {| status_code := 404; json := Ok [] |}) Scenario.start)
                    {| status_code := 404; json := Ok [] |} eq_refl)).
    simpl. lia.
  - apply (proj1 (proj2 (getpost_raises_exactly_on_5xx
                           (Ok {| status_code := 502; json := Ok [] |}) Scenario.start)
                    {| status_code := 502; json := Ok [] |} eq_refl)).
    simpl. lia.
Defined.

(** [guids] returns a list exactly when the request is answered with a
    code outside 400 to 599 (a 3xx answer is decoded like a 2xx one) and the
    body of the answer decodes, and the list is then the decoded body.  A
    code from 400 to 599 raises HTTPError with that code; a body that does
    not decode raises the error of the decoding; an error of the request is
    passed on.  The state is never touched. *)
Theorem guids_result (e : env) (s : state) :
  fst (guids e s) = s
  /\ (forall gs,
        snd (guids e s) = Ok gs
        <-> exists r, http_guids e = Ok r
                      /\ ~ (400 <= status_code r < 600)%Z
                      /\ json r = Ok gs)
  /\ (forall r, http_guids e = Ok r ->
        ((400 <= status_code r < 600)%Z ->
         snd (guids e s) = Raise (HTTPError (status_code r)))
        /\ (forall err, ~ (400 <= status_code r < 600)%Z -> json r = Raise err ->
                        snd (guids e s) = Raise err))
  /\ (forall err, http_guids e = Raise err -> snd (guids e s) = Raise err).
Proof.
  rewrite guids_run. simpl. split; [reflexivity|]. split; [|split].
  - intros gs. split.
    + destruct (http_guids e) as [r|err]; [|discriminate].
      destruct (Z.leb_spec 400 (status_code r)); destruct (Z.ltb_spec (status_code r) 600);
        simpl; try discriminate; intros Hjson; exists r;
        (split; [reflexivity|]); (split; [lia|exact Hjson]).
    + intros (r & -> & Hcode & Hjson).
      destruct (Z.leb_spec 400 (status_code r)); destruct (Z.ltb_spec (status_code r) 600);
        simpl; try exact Hjson; lia.
  - intros r ->.
    destruct (Z.leb_spec 400 (status_code r)); destruct (Z.ltb_spec (status_code r) 600);
      simpl; split; intros; try reflexivity; try assumption; lia.
  - intros err ->. reflexivity.
Qed.

Lemma guids_result_witness :
  let w := Scenario.world [] ["a"; "b"] 200 in
  let html :=
    {| bucket_names := bucket_names w; bucket_get := bucket_get w;
       SeqIO_parse := SeqIO_parse w;
       http_guids := Ok {| status_code := 200;
                           json := Raise (Exception "json.JSONDecodeError") |};
       http_insert := http_insert w |} in
  snd (guids w Scenario.start) = Ok ["a"; "b"]
  /\ snd (guids html Scenario.start) = Raise (Exception "json.JSONDecodeError").
Proof.
  intros w html. split.
  - apply (proj2 (proj1 (proj2 (guids_result w Scenario.start)) ["a"; "b"])).
    exists {| status_code := 200; json := Ok ["a"; "b"] |}.
    split; [reflexivity|]. split; [simpl; lia|reflexivity].
  - apply (proj2 (proj1 (proj2 (proj2 (guids_result html Scenario.start)))
                    {| status_code := 200;
                       json := Raise (Exception "json.JSONDecodeError") |} eq_refl)
             (Exception "json.JSONDecodeError")).
    + simpl. lia.
    + reflexivity.
Defined.

(** ** Faults before and during the batch *)

Lemma pass_listing_raise (self : ObjectStore2FN4) (e : env) (s : state) (err : exn) :
  bucket_names e = Raise err ->
  insert_files_into_server self e s = (s, Raise err).
Proof.
  intros Hl. unfold insert_files_into_server, list_files, bind, lift.
  rewrite Hl. reflexivity.
Qed.

Lemma pass_guids_raise (self : ObjectStore2FN4) (e : env) (s s' : state)
    (names : list string) (err : exn) :
  bucket_names e = Ok names ->
  names <> [] ->
  guids e s = (s', Raise err) ->
  insert_files_into_server self e s = (s, Raise err).
Proof.
  intros Hl Hne Hg.
  pose proof (guids_state e s) as Hs. rewrite Hg in Hs. simpl in Hs. subst s'.
  unfold insert_files_into_server, list_files. unfold bind at 1 2. unfold lift.
  rewrite Hl. destruct names as [|n names']; [contradiction|].
  unfold ret at 1. unfold bind at 1. rewrite Hg. reflexivity.
Qed.

(** A pass whose listing of the bucket fails, or whose guids request fails
    or is answered with a code from 400 to 599, raises that error and has
    done nothing: no row is committed, no object is read, nothing is
    posted. *)
Theorem listing_fault_leaves_no_trace
    (self : ObjectStore2FN4) (e : env) (s : state) (err : exn) :
  (bucket_names e = Raise err
   \/ (exists n names, bucket_names e = Ok (n :: names))
      /\ snd (guids e s) = Raise err) ->
  insert_files_into_server self e s = (s, Raise err).
Proof.
  intros [Hl | [(n & names & Hl) Hg]].
  - apply pass_listing_raise. exact Hl.
  - apply (pass_guids_raise self e s (fst (guids e s)) (n :: names) err Hl);
      [discriminate|].
    rewrite <- Hg. destruct (guids e s). reflexivity.
Qed.

Lemma listing_fault_leaves_no_trace_witness :
  let w := Scenario.world [("abc.fasta", Fasta.file "GPAS_SP3|abc" "ACGT")] [] 200 in
  let down :=
    {| bucket_names := bucket_names w; bucket_get := bucket_get w;
       SeqIO_parse := SeqIO_parse w;
       http_guids := Ok {| status_code := 404; json := Ok [] |};
       http_insert := http_insert w |} in
  insert_files_into_server Scenario.me down Scenario.start
  = (Scenario.start, Raise (HTTPError 404)).
Proof.
  intros w down.
  apply (listing_fault_leaves_no_trace Scenario.me down Scenario.start (HTTPError 404)).
  right. split; [|reflexivity]. eexists. eexists. reflexivity.
Defined.

(** ** A server fault on insert *)

(** When the insert of a well-formed file is answered with a code from 500
    to 599, the file is posted, HTTPError is raised out of the loop body and
    no row is written for the file: the attempt leaves no trace in
    [fn4loadattempt]. *)
Theorem insert_5xx_writes_no_row
    (self : ObjectStore2FN4) (e : env) (batch_start n_to_add i : nat)
    (fname : string) (s : state) (content : string) (r : SeqRecord)
    (g : string) (resp : response) :
  bucket_get e fname = Ok content ->
  SeqIO_parse e content = ([r], None) ->
  filename2fn4id (id r) = Some g ->
  http_insert e g (seq r) = Ok resp ->
  (500 <= status_code resp < 600)%Z ->
  process_file self e batch_start n_to_add i fname s
  = ({| clock := S (S (S (clock s)));
        db := db s;
        calls := calls s ++ [GetObject fname; PostInsert g (seq r)] |},
     Raise (HTTPError (status_code resp))).
Proof.
  intros Hget Hparse Hid Hpost Hcode.
  rewrite (process_file_fetch_ok _ _ _ _ _ _ _ _ _ Hget Hparse), parse_loop_one.
  unfold bind at 1. unfold derive_fn4id. simpl. rewrite Hid. simpl.
  unfold bind at 1. unfold submit, _insert. simpl.
  unfold bind at 1. unfold now at 1. simpl.
  unfold bind at 1 2. unfold called at 1. simpl.
  rewrite getpost_run, Hpost.
  destruct (Z.leb_spec 500 (status_code resp)); [|lia].
  destruct (Z.ltb_spec (status_code resp) 600); [|lia].
  simpl. rewrite <- app_assoc. reflexivity.
Qed.

Lemma insert_5xx_writes_no_row_witness :
  let w := Scenario.world [("abc.fasta", Fasta.file "GPAS_SP3|abc" "ACGT")] [] 503 in
  process_file Scenario.me w 0 1 0 "abc.fasta" Scenario.start
  = ({| clock := 3; db := [];
        calls := [GetObject "abc.fasta"; PostInsert "abc" "ACGT"] |},
     Raise (HTTPError 503)).
Proof.
  intros w.
  apply (insert_5xx_writes_no_row Scenario.me w 0 1 0 "abc.fasta" Scenario.start
           (Fasta.file "GPAS_SP3|abc" "ACGT")
           {| id := "GPAS_SP3|abc"; seq := "ACGT" |} "abc"
           {| status_code := 503; json := Ok [] |}); try reflexivity.
  simpl. lia.
Defined.

(** ** What a pass reads, posts and commits *)

Lemma submit_calls (e : env) (res : res_dict) (sq : option string) (s : state) :
  exists posts : list call,
    calls (fst (submit e res sq s)) = calls s ++ posts
    /\ (posts = [] \/ exists g q, posts = [PostInsert g q]).
Proof.
  unfold submit. destruct (fn4id res) as [g|].
  - unfold bind at 1. unfold now at 1. simpl. unfold bind at 1. unfold _insert.
    destruct sq as [q|].
    + unfold bind at 1. unfold called at 1. simpl. rewrite getpost_run.
      exists [PostInsert g q].
      split; [|right; eauto].
      match goal with |- context [match ?a with Ok _ => _ | Raise _ => _ end] =>
        destruct a as [r|x] end; [|reflexivity].
      destruct ((500 <=? status_code r)%Z && (status_code r <? 600)%Z); reflexivity.
    + exists []. simpl. rewrite app_nil_r. auto.
  - exists []. simpl. rewrite app_nil_r. auto.
Qed.

Lemma process_file_calls (self : ObjectStore2FN4) (e : env)
    (batch_start n_to_add i : nat) (fname : string) (s : state) :
  exists posts : list call,
    calls (fst (process_file self e batch_start n_to_add i fname s))
    = calls s ++ GetObject fname :: posts
    /\ (posts = [] \/ exists g q, posts = [PostInsert g q]).
Proof.
  destruct (bucket_get e fname) as [content|x] eqn:Hget.
  - destruct (SeqIO_parse e content) as [records [x|]] eqn:Hparse.
    { rewrite (process_file_reader_raise _ _ _ _ _ _ _ _ _ _ Hget Hparse).
      exists []. simpl. auto. }
    rewrite (process_file_fetch_ok _ _ _ _ _ _ _ _ _ Hget Hparse).
    destruct (parse_loop _ _ _ _ _) as [res sq]. unfold bind.
    pose proof (derive_fn4id_state res (after_read fname s)) as Hd.
    destruct (derive_fn4id res (after_read fname s)) as [s1 [res1|x]];
      simpl in Hd; subst s1.
    + destruct (submit_calls e res1 sq (after_read fname s)) as (posts & Hc & Hp).
      exists posts. split; [|exact Hp].
      destruct (submit e res1 sq (after_read fname s)) as [s2 [res2|x]];
        simpl in Hc |- *; rewrite Hc; simpl; rewrite <- app_assoc; reflexivity.
    + exists []. simpl. auto.
  - rewrite (process_file_fetch_raise _ _ _ _ _ _ _ _ Hget).
    exists []. simpl. auto.
Qed.

(** The calls that a batch may make: reads of its own files, and posts. *)
Lemma for_enumerate_calls (self : ObjectStore2FN4) (e : env)
    (batch_start n_to_add : nat) (l : list string) :
  forall (next : nat) (last : option nat) (s : state),
  exists new : list call,
    calls (fst (for_enumerate (process_file self e batch_start n_to_add) l next last s))
    = calls s ++ new
    /\ forall c, In c new ->
         match c with
         | GetObject n => In n l
         | PostInsert _ _ => True
         | Sleep _ => False
         end.
Proof.
  induction l as [|f l IH]; intros next last s.
  - exists []. simpl. rewrite app_nil_r. split; [reflexivity|]. intros c [].
  - destruct (process_file_calls self e batch_start n_to_add next f s)
      as (posts & Hc & Hp).
    assert (Hposts : forall c, In c (GetObject f :: posts) ->
              match c with
              | GetObject n => In n (f :: l)
              | PostInsert _ _ => True
              | Sleep _ => False
              end).
    { intros c [<-|Hin]; [left; reflexivity|].
      destruct Hp as [->|(g & q & ->)]; [destruct Hin|].
      destruct Hin as [<-|[]]. exact I. }
    destruct (process_file self e batch_start n_to_add next f s) as [s1 [[]|x]] eqn:Hp1.
    + rewrite (for_enumerate_cons_ok _ _ _ _ _ _ _ Hp1).
      destruct (IH (S next) (Some next) s1) as (new & Hn & Hall).
      exists ((GetObject f :: posts) ++ new).
      simpl in Hc. rewrite Hn, Hc. rewrite <- !app_assoc. split; [reflexivity|].
      intros c Hin. apply in_app_or in Hin. destruct Hin as [Hin|Hin].
      * apply Hposts. exact Hin.
      * specialize (Hall c Hin). destruct c; auto. right. exact Hall.
    + rewrite (for_enumerate_cons_raise _ _ _ _ _ _ _ _ Hp1).
      exists (GetObject f :: posts). simpl in Hc |- *. split; [exact Hc|].
      exact Hposts.
Qed.

(** The batch is the listing without the names whose stem the server
    holds, in the order of the listing. *)
Lemma batch_files_spec (self : ObjectStore2FN4) (s : state) (names gs : list string)
    (n : string) :
  In n (batch_files self s names gs)
  <-> In n names /\ ~ In (PyStr.split_first "." n) gs.
Proof.
  unfold batch_files, select_files. rewrite filter_In, to_add_ignores_ledger.
  rewrite bool_decide_eq_true, elem_of_difference, !elem_of_list_to_set.
  rewrite !list_elem_of_In. unfold listed_fn4ids. split.
  - intros (Hn & _ & Hg). auto.
  - intros (Hn & Hg). repeat split; auto. apply in_map. exact Hn.
Qed.

Lemma pass_listed_state (self : ObjectStore2FN4) (e : env) (s s' : state)
    (names gs : list string) :
  bucket_names e = Ok names ->
  names <> [] ->
  guids e s = (s', Ok gs) ->
  fst (insert_files_into_server self e s)
  = fst (for_enumerate
           (process_file self e (clock s) (size (to_add self names gs (db s))))
           (batch_files self s names gs) 0 None (after_batch self s names gs)).
Proof.
  intros Hl Hne Hg. rewrite (pass_listed self e s s' names gs Hl Hne Hg).
  unfold bind. destruct (for_enumerate _ _ _ _ _) as [s2 [[i|]|x]]; reflexivity.
Qed.

(** Every branch of a pass: what is added to the calls and to the ledger. *)
Lemma pass_effects (self : ObjectStore2FN4) (e : env) (s : state) :
  exists (new : list call) (rows : list db_row),
    calls (fst (insert_files_into_server self e s)) = calls s ++ new
    /\ db (fst (insert_files_into_server self e s)) = db s ++ rows
    /\ forall c, In c new ->
         match c with
         | GetObject n =>
             exists names gs,
               bucket_names e = Ok names /\ snd (guids e s) = Ok gs
               /\ In n (batch_files self s names gs)
         | PostInsert _ _ => True
         | Sleep _ => False
         end.
Proof.
  destruct (bucket_names e) as [[|n names']|x] eqn:Hl.
  - rewrite (pass_empty_listing self e s Hl). exists [], []. simpl.
    rewrite !app_nil_r. repeat split. intros c [].
  - set (names := n :: names') in *.
    assert (Hne : names <> []) by discriminate.
    destruct (guids e s) as [s' [gs|x]] eqn:Hg.
    + rewrite (pass_listed_state self e s s' names gs Hl Hne Hg).
      destruct (for_enumerate_calls self e (clock s)
                  (size (to_add self names gs (db s)))
                  (batch_files self s names gs) 0 None (after_batch self s names gs))
        as (new & Hc & Hall).
      destruct (for_enumerate_db self e (clock s)
                  (size (to_add self names gs (db s)))
                  (batch_files self s names gs) 0 None (after_batch self s names gs))
        as (rows & Hdb & _).
      exists new, (BatchRow (batch_check self s names gs) :: map AttemptRow rows).
      rewrite Hc, Hdb. simpl. rewrite <- app_assoc. repeat split.
      intros c Hin. specialize (Hall c Hin). destruct c; auto.
      exists names, gs. auto.
    + rewrite (pass_guids_raise self e s s' names x Hl Hne Hg). exists [], []. simpl.
      rewrite !app_nil_r. repeat split. intros c [].
  - rewrite (pass_listing_raise self e s x Hl). exists [], []. simpl.
    rewrite !app_nil_r. repeat split. intros c [].
Qed.

(** A pass never reads an object whose identity the server already lists:
    every object it fetches is a listed name whose part before the first
    [.] is absent from the guids it received. *)
Theorem pass_reads_only_unlisted_identities
    (self : ObjectStore2FN4) (e : env) (s : state) (names gs : list string)
    (n : string) :
  bucket_names e = Ok names ->
  snd (guids e s) = Ok gs ->
  In (GetObject n) (calls (fst (insert_files_into_server self e s))) ->
  In (GetObject n) (calls s)
  \/ (In n names /\ ~ In (PyStr.split_first "." n) gs).
Proof.
  intros Hl Hg Hin.
  destruct (pass_effects self e s) as (new & rows & Hc & _ & Hall).
  rewrite Hc in Hin. apply in_app_or in Hin. destruct Hin as [Hin|Hin]; [left; exact Hin|].
  right. specialize (Hall _ Hin). simpl in Hall.
  destruct Hall as (names' & gs' & Hl' & Hg' & Hb).
  rewrite Hl in Hl'. rewrite Hg in Hg'. injection Hl' as <-. injection Hg' as <-.
  apply (batch_files_spec self s names gs n). exact Hb.
Qed.

Lemma pass_reads_only_unlisted_identities_witness :
  let w := Scenario.world [("abc.fasta", Fasta.file "GPAS_SP3|abc" "ACGT");
                           ("old.fasta", Fasta.file "GPAS_SP3|old" "ACGT")] ["old"] 200 in
  In (GetObject "abc.fasta") (calls Scenario.start)
  \/ (In "abc.fasta" ["abc.fasta"; "old.fasta"]
      /\ ~ In (PyStr.split_first "." "abc.fasta") ["old"]).
Proof.
  intros w.
  apply (pass_reads_only_unlisted_identities Scenario.me w Scenario.start
           ["abc.fasta"; "old.fasta"] ["old"] "abc.fasta" eq_refl eq_refl).
  vm_compute. left. reflexivity.
Defined.

Lemma poll_loop_calls (self : ObjectStore2FN4) (worlds : list env) :
  forall s : state,
  exists new : list call,
    calls (fst (poll_loop self worlds s)) = calls s ++ new /\ sleeps new = [].
Proof.
  induction worlds as [|e worlds IH]; intros s.
  - exists []. simpl. rewrite app_nil_r. auto.
  - simpl. unfold bind. rewrite poll_once_never_sleeps.
    destruct (pass_effects self e s) as (new & rows & Hc & _ & Hall).
    assert (Hnew : sleeps new = []).
    { unfold sleeps. clear Hc. induction new as [|c new IHn]; [reflexivity|].
      simpl. pose proof (Hall c (or_introl eq_refl)) as Hc.
      destruct c; try contradiction; apply IHn; intros c' Hin;
        apply Hall; right; exact Hin. }
    destruct (insert_files_into_server self e s) as [s1 [v|x]]; simpl in *.
    + destruct (IH s1) as (new' & Hc' & Hs'). exists (new ++ new').
      rewrite Hc', Hc, <- app_assoc. split; [reflexivity|].
      unfold sleeps in *. rewrite List.filter_app, Hnew, Hs'. reflexivity.
    + exists new. auto.
Qed.

(** The poll loop never sleeps, whatever the passes find: after any number
    of turns over any answers of the outside world, the calls of
    [time.sleep] are those made before the loop started. *)
Theorem poll_loop_never_sleeps
    (self : ObjectStore2FN4) (worlds : list env) (s : state) :
  sleeps (calls (fst (poll_loop self worlds s))) = sleeps (calls s).
Proof.
  destruct (poll_loop_calls self worlds s) as (new & Hc & Hs).
  rewrite Hc. unfold sleeps in *. rewrite List.filter_app, Hs, app_nil_r. reflexivity.
Qed.

(** The ledger is append-only: however many turns the poll loop makes and
    however they end, the rows present before are still there, in the same
    order, followed by the new ones. *)
Theorem poll_loop_appends_to_ledger
    (self : ObjectStore2FN4) (worlds : list env) (s : state) :
  exists rows : list db_row, db (fst (poll_loop self worlds s)) = db s ++ rows.
Proof.
  revert s. induction worlds as [|e worlds IH]; intros s.
  - exists []. simpl. rewrite app_nil_r. reflexivity.
  - simpl. unfold bind. rewrite poll_once_never_sleeps.
    destruct (pass_effects self e s) as (new & rows & _ & Hdb & _).
    destruct (insert_files_into_server self e s) as [s1 [v|x]]; simpl in *.
    + destruct (IH s1) as [rows' Hrows']. exists (rows ++ rows').
      rewrite Hrows', Hdb, <- app_assoc. reflexivity.
    + exists rows. exact Hdb.
Qed.

(** ** The rows of a batch *)

Section Labels.

Variables (self : ObjectStore2FN4) (e : env).
Variables (batch_start n_to_add : nat).

Lemma parse_loop_labelled (i : nat) (fname : string) (records : list SeqRecord) :
  forall (k : nat) (res : res_dict) (sq : option string),
    labelled self batch_start n_to_add i fname res ->
    labelled self batch_start n_to_add i fname (fst (parse_loop fname records k res sq)).
Proof.
  induction records as [|r records IH]; intros k res sq Hres; [exact Hres|].
  simpl. destruct (Nat.ltb_spec 1 (S k)); apply IH;
    unfold labelled in *; simpl; tauto.
Qed.

Lemma derive_fn4id_labelled (i : nat) (fname : string) (res res' : res_dict)
    (s s' : state) :
  labelled self batch_start n_to_add i fname res ->
  derive_fn4id res s = (s', Ok res') ->
  labelled self batch_start n_to_add i fname res'.
Proof.
  intros Hres. unfold derive_fn4id.
  destruct (String.eqb (parse_status res) "Success").
  - destruct (seqid res) as [sid|]; [|discriminate]. simpl.
    destruct (filename2fn4id sid); intros [= _ <-]; unfold labelled in *; simpl; tauto.
  - intros [= _ <-]. exact Hres.
Qed.

Lemma submit_labelled (i : nat) (fname : string) (res res' : res_dict)
    (sq : option string) (s s' : state) :
  labelled self batch_start n_to_add i fname res ->
  submit e res sq s = (s', Ok res') ->
  labelled self batch_start n_to_add i fname res'.
Proof.
  intros Hres. unfold submit. destruct (fn4id res) as [g|].
  - unfold bind at 1. unfold now at 1. simpl. unfold bind at 1.
    destruct (_insert e g sq _) as [s1 [resp|x]]; [|discriminate].
    unfold bind, now, ret. simpl. intros [= _ <-].
    unfold labelled in *; simpl; tauto.
  - intros [= _ <-]. exact Hres.
Qed.

(** A file that is recorded gets a row that carries its own labels. *)
Lemma process_file_row (i : nat) (fname : string) (s s' : state) :
  process_file self e batch_start n_to_add i fname s = (s', Ok tt) ->
  exists res : res_dict,
    db s' = db s ++ [AttemptRow {| la_res := res; completed := move_file res |}]
    /\ labelled self batch_start n_to_add i fname res.
Proof.
  destruct (bucket_get e fname) as [content|x] eqn:Hget.
  - destruct (SeqIO_parse e content) as [records [x|]] eqn:Hparse.
    { rewrite (process_file_reader_raise _ _ _ _ _ _ _ _ _ _ Hget Hparse). discriminate. }
    rewrite (process_file_fetch_ok _ _ _ _ _ _ _ _ _ Hget Hparse).
    pose proof (parse_loop_labelled i fname records 0
                  (new_res self batch_start n_to_add i fname content (clock s)
                     (S (clock s))) None) as Hlab.
    destruct (parse_loop _ _ _ _ _) as [res sq]. simpl in Hlab.
    assert (Hres : labelled self batch_start n_to_add i fname res)
      by (apply Hlab; unfold labelled; simpl; tauto).
    unfold bind.
    pose proof (derive_fn4id_state res (after_read fname s)) as Hd.
    destruct (derive_fn4id res (after_read fname s)) as [s1 [res1|x]] eqn:Hder;
      simpl in Hd; subst s1; [|discriminate].
    pose proof (derive_fn4id_labelled i fname res res1 _ _ Hres Hder) as Hres1.
    pose proof (submit_db e res1 sq (after_read fname s)) as Hs.
    destruct (submit e res1 sq (after_read fname s)) as [s2 [res2|x]] eqn:Hsub;
      simpl in Hs; [|discriminate].
    pose proof (submit_labelled i fname res1 res2 sq _ _ Hres1 Hsub) as Hres2.
    unfold commit. intros [= <-]. exists res2. simpl. rewrite Hs. auto.
  - rewrite (process_file_fetch_raise _ _ _ _ _ _ _ _ Hget). discriminate.
Qed.

(** A loop that runs to its end has written one row per file, in the order
    of the files, numbered from [next]. *)
Lemma for_enumerate_rows (l : list string) :
  forall (next : nat) (last v : option nat) (s s' : state),
    for_enumerate (process_file self e batch_start n_to_add) l next last s = (s', Ok v) ->
    exists rows : list FN4LoadAttempt,
      db s' = db s ++ map AttemptRow rows
      /\ map (fun la => file_name (la_res la)) rows = l
      /\ map (fun la => batch_sample_number (la_res la)) rows = List.seq next (length l)
      /\ (forall la, In la rows ->
            host_name (la_res la) = self_host_name self
            /\ findneighbour_server_url (la_res la) = self_findneighbour_server_url self
            /\ batch_start_time (la_res la) = batch_start
            /\ batch_size (la_res la) = n_to_add)
      /\ v = match l with [] => last | _ :: _ => Some (next + length l - 1) end.
Proof.
  induction l as [|f l IH]; intros next last v s s' Hrun.
  - simpl in Hrun. injection Hrun as <- <-. exists []. simpl.
    rewrite app_nil_r.
    refine (conj eq_refl (conj eq_refl (conj eq_refl (conj _ eq_refl)))).
    intros la0 [].
  - destruct (process_file self e batch_start n_to_add next f s) as [s1 [[]|x]] eqn:Hp.
    + rewrite (for_enumerate_cons_ok _ _ _ _ _ _ _ Hp) in Hrun.
      destruct (process_file_row next f s s1 Hp) as (res & Hdb & Hlab).
      destruct (IH (S next) (Some next) v s1 s' Hrun)
        as (rows & Hdb' & Hnames & Hnums & Hall & Hv).
      exists ({| la_res := res; completed := move_file res |} :: rows).
      unfold labelled in Hlab. destruct Hlab as (Hh & Hu & Hb & Hn & Hi & Hf).
      simpl. rewrite Hdb', Hdb, <- app_assoc, Hnames, Hnums, Hi, Hf.
      refine (conj eq_refl (conj eq_refl (conj eq_refl (conj _ _)))).
      * intros la0 [<-|Hin]; simpl; auto.
      * rewrite Hv. destruct l; simpl; f_equal; lia.
    + rewrite (for_enumerate_cons_raise _ _ _ _ _ _ _ _ Hp) in Hrun. discriminate.
Qed.

End Labels.

Lemma pass_returned (self : ObjectStore2FN4) (e : env) (s s2 : state)
    (names gs : list string) (v : pyval) :
  bucket_names e = Ok names ->
  names <> [] ->
  snd (guids e s) = Ok gs ->
  insert_files_into_server self e s = (s2, Ok v) ->
  exists i : nat,
    for_enumerate (process_file self e (clock s) (size (to_add self names gs (db s))))
      (batch_files self s names gs) 0 None (after_batch self s names gs)
    = (s2, Ok (Some i))
    /\ v = PyDict {[ "added" := Z.of_nat i ]}.
Proof.
  intros Hl Hne Hg Hrun.
  destruct (guids e s) as [s' r] eqn:Hguids. simpl in Hg. subst r.
  rewrite (pass_listed self e s s' names gs Hl Hne Hguids) in Hrun.
  unfold bind in Hrun.
  destruct (for_enumerate _ _ _ _ _) as [s3 [[i|]|x]]; try discriminate.
  injection Hrun as <- <-. exists i. auto.
Qed.

(** The value returned by a pass over a non-empty listing is the index of
    the last file of the batch, one less than the number of files handled:
    a pass that handled a single file returns [{"added": 0}], like a pass
    over an empty bucket. *)
Theorem pass_returns_last_index
    (self : ObjectStore2FN4) (e : env) (s s2 : state) (names gs : list string)
    (v : pyval) :
  bucket_names e = Ok names ->
  names <> [] ->
  snd (guids e s) = Ok gs ->
  insert_files_into_server self e s = (s2, Ok v) ->
  batch_files self s names gs <> []
  /\ v = PyDict {[ "added" := (Z.of_nat (length (batch_files self s names gs)) - 1)%Z ]}.
Proof.
  intros Hl Hne Hg Hrun.
  destruct (pass_returned self e s s2 names gs v Hl Hne Hg Hrun) as (i & Hloop & ->).
  destruct (for_enumerate_rows self e _ _ _ _ _ _ _ _ Hloop) as (rows & _ & _ & _ & _ & Hv).
  destruct (batch_files self s names gs) as [|f files]; [discriminate|].
  split; [discriminate|]. injection Hv as ->. do 2 f_equal. simpl length. lia.
Qed.

Lemma pass_returns_last_index_witness :
  let w := Scenario.world [("abc.fasta", Fasta.file "GPAS_SP3|abc" "ACGT")] [] 200 in
  batch_files Scenario.me Scenario.start ["abc.fasta"] [] <> []
  /\ snd (insert_files_into_server Scenario.me w Scenario.start)
     = Ok (PyDict {[ "added" :=
             (Z.of_nat (length (batch_files Scenario.me Scenario.start ["abc.fasta"] []))
              - 1)%Z ]}).
Proof.
  intros w.
  destruct (insert_files_into_server Scenario.me w Scenario.start) as [s2 r] eqn:Hrun.
  assert (Hr : r = Ok (PyDict {[ "added" := 0%Z ]})).
  { apply (f_equal snd) in Hrun. simpl in Hrun. rewrite <- Hrun. vm_compute. reflexivity. }
  subst r.
  destruct (pass_returns_last_index Scenario.me w Scenario.start s2 ["abc.fasta"] []
              (PyDict {[ "added" := 0%Z ]}) eq_refl ltac:(discriminate) eq_refl Hrun)
    as [Hne Hv].
  split; [exact Hne|]. simpl. rewrite <- Hv. reflexivity.
Defined.

(** A pass that returns has written, after its batch row, one attempt row
    per file of the batch, in the order of the listing, numbered from 0;
    every row carries the host and server of [self], the time the batch
    started and, as [batch_size], the number of identities to add. *)
Theorem pass_rows_follow_batch
    (self : ObjectStore2FN4) (e : env) (s s2 : state) (names gs : list string)
    (v : pyval) :
  bucket_names e = Ok names ->
  names <> [] ->
  snd (guids e s) = Ok gs ->
  insert_files_into_server self e s = (s2, Ok v) ->
  exists rows : list FN4LoadAttempt,
    db s2 = db s ++ BatchRow (batch_check self s names gs) :: map AttemptRow rows
    /\ map (fun la => file_name (la_res la)) rows = batch_files self s names gs
    /\ map (fun la => batch_sample_number (la_res la)) rows
       = List.seq 0 (length (batch_files self s names gs))
    /\ forall la, In la rows ->
         host_name (la_res la) = self_host_name self
         /\ findneighbour_server_url (la_res la) = self_findneighbour_server_url self
         /\ batch_start_time (la_res la) = clock s
         /\ batch_size (la_res la) = size (to_add self names gs (db s)).
Proof.
  intros Hl Hne Hg Hrun.
  destruct (pass_returned self e s s2 names gs v Hl Hne Hg Hrun) as (i & Hloop & _).
  destruct (for_enumerate_rows self e _ _ _ _ _ _ _ _ Hloop)
    as (rows & Hdb & Hnames & Hnums & Hall & _).
  exists rows. simpl in Hdb. rewrite <- app_assoc in Hdb. auto.
Qed.

Lemma pass_rows_follow_batch_witness :
  let w := Scenario.world [("abc.fasta", Fasta.file "GPAS_SP3|abc" "ACGT");
                           ("two.fasta", Fasta.file "GPAS_SP3|two" "GG")] [] 200 in
  exists rows : list FN4LoadAttempt,
    map (fun la => file_name (la_res la)) rows
    = batch_files Scenario.me Scenario.start ["abc.fasta"; "two.fasta"] []
    /\ map (fun la => batch_sample_number (la_res la)) rows
       = List.seq 0 (length (batch_files Scenario.me Scenario.start
                               ["abc.fasta"; "two.fasta"] [])).
Proof.
  intros w.
  destruct (insert_files_into_server Scenario.me w Scenario.start) as [s2 r] eqn:Hrun.
  assert (Hr : r = Ok (PyDict {[ "added" := 1%Z ]})).
  { apply (f_equal snd) in Hrun. simpl in Hrun. rewrite <- Hrun. vm_compute. reflexivity. }
  subst r.
  destruct (pass_rows_follow_batch Scenario.me w Scenario.start s2
              ["abc.fasta"; "two.fasta"] [] (PyDict {[ "added" := 1%Z ]})
              eq_refl ltac:(discriminate) eq_refl Hrun)
    as (rows & _ & Hnames & Hnums & _).
  exists rows. auto.
Defined.

(** ** Identities *)

Lemma replace_scan_absent (old new : string) (y : string) :
  PyStr.contains y old = false -> PyStr.replace_scan old new 0 y = y.
Proof.
  induction y as [|c y IH]; intros H; [reflexivity|].
  change (PyStr.contains (String c y) old)
    with (String.prefix old (String c y) || PyStr.contains y old) in H.
  apply orb_false_iff in H. destruct H as [Hp Hc].
  change (PyStr.replace_scan old new 0 (String c y))
    with (if String.prefix old (String c y)
          then String.append new
                 (PyStr.replace_scan old new (String.length old - 1) y)
          else String c (PyStr.replace_scan old new 0 y)).
  rewrite Hp, (IH Hc). reflexivity.
Qed.

(** The extractor undoes the tagging: an identity that does not itself
    contain ["GPAS_SP3|"] is recovered from its tagged form. *)
Theorem filename2fn4id_untags (y : string) :
  PyStr.contains y "GPAS_SP3|" = false ->
  filename2fn4id (String.append "GPAS_SP3|" y) = Some y.
Proof.
  intros H. unfold filename2fn4id, PyStr.startswith, PyStr.replace.
  simpl. change (String.append "" y) with y.
  assert (Hp : String.prefix "" y = true) by (destruct y; reflexivity).
  rewrite Hp.
  rewrite (replace_scan_absent "GPAS_SP3|" "" y H). reflexivity.
Qed.

Lemma filename2fn4id_untags_witness :
  filename2fn4id (String.append "GPAS_SP3|" "abc-1") = Some "abc-1".
Proof. apply (filename2fn4id_untags "abc-1"). reflexivity. Defined.

Lemma split_first_no_sep (sep : ascii) (s : string) :
  PyStr.contains (PyStr.split_first sep s) (String sep EmptyString) = false.
Proof.
  induction s as [|c s IH]; simpl.
  - reflexivity.
  - destruct (Ascii.eqb_spec c sep) as [->|Hne]; simpl; [reflexivity|].
    rewrite IH. destruct (ascii_dec sep c) as [->|_]; [contradiction|reflexivity].
Qed.

(** The identities of the listing never contain a [.], so a guid with a
    [.] in it excludes no file: the candidates are the same with and
    without it in the server's list. *)
Theorem dotted_guid_excludes_nothing
    (self : ObjectStore2FN4) (names gs : list string) (rows : list db_row)
    (g : string) :
  PyStr.contains g "." = true ->
  to_add self names (g :: gs) rows = to_add self names gs rows.
Proof.
  intros Hdot. rewrite !to_add_ignores_ledger.
  assert (Hg : g ∉ (list_to_set (listed_fn4ids names) : gset string)).
  { rewrite elem_of_list_to_set, list_elem_of_In. unfold listed_fn4ids.
    rewrite in_map_iff. intros (n & <- & _).
    rewrite split_first_no_sep in Hdot. discriminate. }
  rewrite list_to_set_cons. set_solver.
Qed.

Lemma dotted_guid_excludes_nothing_witness :
  to_add Scenario.me ["abc.1.fasta"] ["abc.1"] []
  = to_add Scenario.me ["abc.1.fasta"] [] [].
Proof.
  apply (dotted_guid_excludes_nothing Scenario.me ["abc.1.fasta"] [] [] "abc.1").
  reflexivity.
Defined.

(** ** The two batch sizes *)

Lemma size_list_to_set_le (l : list string) :
  size (list_to_set l : gset string) <= length l.
Proof.
  induction l as [|x l IH].
  - rewrite list_to_set_nil, size_empty. simpl. lia.
  - rewrite list_to_set_cons, size_union_alt, size_singleton. simpl length.
    pose proof (subseteq_size (list_to_set l ∖ {[x]}) (list_to_set l : gset string)
                  ltac:(set_solver)).
    lia.
Qed.

Lemma to_add_is_batch_stems (self : ObjectStore2FN4) (s : state)
    (names gs : list string) :
  to_add self names gs (db s)
  = list_to_set (map (PyStr.split_first ".") (batch_files self s names gs)).
Proof.
  apply set_eq. intros x.
  rewrite elem_of_list_to_set, list_elem_of_In, in_map_iff. split.
  - intros Hx. pose proof Hx as Hx'.
    rewrite to_add_ignores_ledger, elem_of_difference, !elem_of_list_to_set in Hx'.
    rewrite !list_elem_of_In in Hx'. destruct Hx' as [Hin Hg].
    unfold listed_fn4ids in Hin. apply in_map_iff in Hin. destruct Hin as (n & <- & Hn).
    exists n. split; [reflexivity|].
    apply batch_files_spec. auto.
  - intros (n & <- & Hn). apply batch_files_spec in Hn. destruct Hn as [Hn Hg].
    rewrite to_add_ignores_ledger, elem_of_difference, !elem_of_list_to_set.
    rewrite !list_elem_of_In. split; [|exact Hg].
    unfold listed_fn4ids. apply in_map. exact Hn.
Qed.

(** The [batch_size] written to the attempt rows (the number of identities
    to add) never exceeds the [batch_size] of the batch row (the number of
    files), and the two agree when no two listed names share the part
    before the first [.]. *)
Theorem batch_sizes_agree_for_distinct_stems
    (self : ObjectStore2FN4) (s : state) (names gs : list string) :
  size (to_add self names gs (db s)) <= bc_batch_size (batch_check self s names gs)
  /\ (List.NoDup (listed_fn4ids names) ->
      size (to_add self names gs (db s)) = bc_batch_size (batch_check self s names gs)).
Proof.
  simpl. rewrite to_add_is_batch_stems. split.
  - etransitivity; [apply size_list_to_set_le|]. rewrite length_map. reflexivity.
  - intros Hnd. rewrite size_list_to_set, length_map; [reflexivity|].
    apply NoDup_ListNoDup.
    unfold batch_files, select_files.
    pose proof (List.filter_map_swap
                  (fun x => bool_decide (x ∈ to_add self names gs (db s)))
                  (PyStr.split_first ".") names) as Hswap.
    cbv beta in Hswap. rewrite <- Hswap.
    apply List.NoDup_filter. exact Hnd.
Qed.

Lemma batch_sizes_agree_for_distinct_stems_witness :
  size (to_add Scenario.me ["abc.fasta"; "old.fasta"] ["old"] (db Scenario.start))
  = bc_batch_size
      (batch_check Scenario.me Scenario.start ["abc.fasta"; "old.fasta"] ["old"]).
Proof.
  apply (proj2 (batch_sizes_agree_for_distinct_stems Scenario.me Scenario.start
                  ["abc.fasta"; "old.fasta"] ["old"])).
  repeat constructor; simpl; intuition discriminate.
Defined.

(** Two files with one stem: the batch row counts two, the attempt rows
    say one. *)
Example batch_sizes_differ_for_shared_stem :
  size (to_add Scenario.me ["abc.fasta"; "abc.txt"] [] [])  = 1
  /\ bc_batch_size (batch_check Scenario.me Scenario.start ["abc.fasta"; "abc.txt"] [])
     = 2.
Proof. split; vm_compute; reflexivity. Qed.

(** ** Start-up *)

Lemma keys_missing (keys : gset string) (cfg : gmap string string) :
  bool_decide (0 < size (keys ∖ dom cfg)) = false <-> keys ⊆ dom cfg.
Proof.
  rewrite bool_decide_eq_false. split.
  - intros H x Hx. destruct (decide (x ∈ dom cfg)) as [Hin|Hout]; [exact Hin|].
    exfalso. apply H.
    assert (Hne : size (keys ∖ dom cfg) <> 0).
    { apply size_non_empty_iff. intros Hempty.
      apply (proj1 (elem_of_equiv_empty _) Hempty x).
      apply elem_of_difference. auto. }
    lia.
  - intros Hsub Hpos.
    assert (Hempty : keys ∖ dom cfg ≡ ∅).
    { apply elem_of_equiv_empty. intros x Hx. apply elem_of_difference in Hx.
      destruct Hx as [Hk Hd]. apply Hd, Hsub, Hk. }
    apply size_empty_iff in Hempty. lia.
Qed.

Lemma two_keys (cfg : gmap string string) :
  ({[ "DBTYPE"; "ENGINE_NAME" ]} : gset string) ⊆ dom cfg
  <-> is_Some (cfg !! "DBTYPE") /\ is_Some (cfg !! "ENGINE_NAME").
Proof.
  rewrite <- !elem_of_dom. split.
  - intros H. split; apply H; set_solver.
  - intros [H1 H2] x Hx. apply elem_of_union in Hx.
    destruct Hx as [Hx|Hx]; apply elem_of_singleton in Hx; subst x; assumption.
Qed.

Lemma three_keys (cfg : gmap string string) :
  ({[ "DBTYPE"; "ENGINE_NAME"; "TNS_ADMIN" ]} : gset string) ⊆ dom cfg
  <-> is_Some (cfg !! "DBTYPE") /\ is_Some (cfg !! "ENGINE_NAME")
      /\ is_Some (cfg !! "TNS_ADMIN").
Proof.
  rewrite <- !elem_of_dom. split.
  - intros H. repeat split; apply H; set_solver.
  - intros (H1 & H2 & H3) x Hx. apply elem_of_union in Hx.
    destruct Hx as [Hx|Hx]; [apply elem_of_union in Hx; destruct Hx as [Hx|Hx]|];
      apply elem_of_singleton in Hx; subst x; assumption.
Qed.

(** A connection token (a [connection_config] without ["://"]) yields an
    engine exactly when DB_CONNECTION_CONFIG_FILE names an existing file
    that parses, the token is a key of it, and its entry has DBTYPE and
    ENGINE_NAME, and TNS_ADMIN too when DBTYPE is ["oracle"].  The engine is
    then ENGINE_NAME, and [os.environ] changes only for oracle, where
    TNS_ADMIN is set from the entry. *)
Theorem resolve_engine_for_token
    (token : string) (p : process) (name : string) (env' : gmap string string) :
  PyStr.contains token "://" = false ->
  resolve_engine (Some token) p = inr (name, env')
  <-> exists path conn_detail cfg dbtype,
        environ p !! "DB_CONNECTION_CONFIG_FILE" = Some path
        /\ json_files p !! path = Some (Some conn_detail)
        /\ conn_detail !! token = Some cfg
        /\ cfg !! "DBTYPE" = Some dbtype
        /\ cfg !! "ENGINE_NAME" = Some name
        /\ ((dbtype = "oracle"
             /\ exists tns, cfg !! "TNS_ADMIN" = Some tns
                            /\ env' = <[ "TNS_ADMIN" := tns ]> (environ p))
            \/ (dbtype <> "oracle" /\ env' = environ p)).
Proof.
  intros Htoken. unfold resolve_engine. rewrite Htoken. split.
  - destruct (environ p !! "DB_CONNECTION_CONFIG_FILE") as [path|] eqn:Hvar;
      [|discriminate].
    destruct (json_files p !! path) as [[conn_detail|]|] eqn:Hfile; try discriminate.
    destruct (conn_detail !! token) as [cfg|] eqn:Htok; [|discriminate].
    destruct (bool_decide (0 < size (_ ∖ dom cfg))); [discriminate|].
    destruct (cfg !! "DBTYPE") as [dbtype|] eqn:Hdb; [|discriminate].
    destruct (cfg !! "ENGINE_NAME") as [ename|] eqn:Hen; [|discriminate].
    destruct (String.eqb_spec dbtype "oracle") as [->|Hne].
    + destruct (bool_decide (0 < size (_ ∖ dom cfg))); [discriminate|].
      destruct (cfg !! "TNS_ADMIN") as [tns|] eqn:Htns; [|discriminate].
      intros [= <- <-]. exists path, conn_detail, cfg, "oracle".
      refine (conj eq_refl (conj Hfile (conj Htok (conj Hdb (conj Hen _))))).
      left. split; [reflexivity|]. exists tns. split; [exact Htns|reflexivity].
    + intros [= <- <-]. exists path, conn_detail, cfg, dbtype.
      refine (conj eq_refl (conj Hfile (conj Htok (conj Hdb (conj Hen _))))).
      right. split; [exact Hne|reflexivity].
  - intros (path & conn_detail & cfg & dbtype & Hvar & Hfile & Htok & Hdb & Hen & Hcase).
    rewrite Hvar, Hfile, Htok.
    assert (H2 : bool_decide
                   (0 < size (({[ "DBTYPE"; "ENGINE_NAME" ]} : gset string) ∖ dom cfg))
                 = false).
    { apply keys_missing, two_keys. rewrite Hdb, Hen. eauto. }
    rewrite H2, Hdb, Hen.
    destruct Hcase as [[-> (tns & Htns & ->)] | [Hne ->]].
    + simpl.
      assert (H3 : bool_decide
                     (0 < size (({[ "DBTYPE"; "ENGINE_NAME"; "TNS_ADMIN" ]}
                                 : gset string) ∖ dom cfg))
                   = false).
      { apply keys_missing, three_keys. rewrite Hdb, Hen, Htns. eauto. }
      rewrite H3, Htns. reflexivity.
    + destruct (String.eqb_spec dbtype "oracle") as [->|_]; [contradiction|reflexivity].
Qed.

Lemma resolve_engine_for_token_witness :
  let cfg : gmap string string :=
    {[ "DBTYPE" := "oracle"; "ENGINE_NAME" := "oracle+cx_oracle://u@db";
       "TNS_ADMIN" := "/secrets/wallet" ]} in
  let p :=
    {| environ := {[ "DB_CONNECTION_CONFIG_FILE" := "/secret/config.json" ]};
       json_files := {[ "/secret/config.json" := Some {[ "prod" := cfg ]} ]};
       tables := [] |} in
  resolve_engine (Some "prod") p
  = inr ("oracle+cx_oracle://u@db", <[ "TNS_ADMIN" := "/secrets/wallet" ]> (environ p)).
Proof.
  intros cfg p.
  apply (proj2 (resolve_engine_for_token "prod" p "oracle+cx_oracle://u@db"
                  (<[ "TNS_ADMIN" := "/secrets/wallet" ]> (environ p)) eq_refl)).
  exists "/secret/config.json", {[ "prod" := cfg ]}, cfg, "oracle".
  repeat split; try reflexivity.
  left. split; [reflexivity|]. exists "/secrets/wallet". split; reflexivity.
Defined.

Lemma resolve_engine_environ (connection_config : option string) (p : process)
    (name : string) (env' : gmap string string) :
  resolve_engine connection_config p = inr (name, env') ->
  forall k, k <> "TNS_ADMIN" -> env' !! k = environ p !! k.
Proof.
  unfold resolve_engine. destruct connection_config as [token|].
  - destruct (PyStr.contains token "://").
    + intros [= _ <-]. reflexivity.
    + destruct (environ p !! "DB_CONNECTION_CONFIG_FILE") as [path|]; [|discriminate].
      destruct (json_files p !! path) as [[conn_detail|]|]; try discriminate.
      destruct (conn_detail !! token) as [cfg|]; [|discriminate].
      destruct (bool_decide (0 < size (_ ∖ dom cfg))); [discriminate|].
      destruct (cfg !! "DBTYPE") as [dbtype|]; [|discriminate].
      destruct (cfg !! "ENGINE_NAME") as [ename|]; [|discriminate].
      destruct (String.eqb dbtype "oracle").
      * destruct (bool_decide (0 < size (_ ∖ dom cfg))); [discriminate|].
        destruct (cfg !! "TNS_ADMIN") as [tns|]; [|discriminate].
        intros [= _ <-] k Hk. apply lookup_insert_ne. congruence.
      * intros [= _ <-]. reflexivity.
  - intros [= _ <-]. reflexivity.
Qed.

(** What a start-up can change.  Whether it fails or succeeds, every
    variable of [os.environ] but TNS_ADMIN is as before, and the two tables
    are untouched unless [debug] is 2.  A start-up that fails while the
    engine name is worked out has changed nothing at all; one that fails
    later, in a call into SQLAlchemy, may already have set TNS_ADMIN.  A
    start-up that succeeds with [debug = 2] has emptied both tables. *)
Theorem init_effects
    (sql : sqlalchemy) (url namespace input_bucket : string)
    (connection_config : option string) (debug : Z) (hostname : string) (p : process) :
  let out := init sql url namespace input_bucket connection_config debug hostname p in
  (forall k, k <> "TNS_ADMIN" -> environ (fst out) !! k = environ p !! k)
  /\ json_files (fst out) = json_files p
  /\ (debug <> 2%Z -> tables (fst out) = tables p)
  /\ (forall err, resolve_engine connection_config p = inl err -> out = (p, inl err))
  /\ (forall self, snd out = inr self ->
        (debug = 2%Z -> tables (fst out) = [])
        /\ core self = {| self_host_name := hostname;
                          self_findneighbour_server_url := url |}).
Proof.
  unfold init.
  destruct (resolve_engine connection_config p) as [err|[name env']] eqn:Hres.
  - simpl. repeat split; try reflexivity.
    + intros err' [= <-]. reflexivity.
    + discriminate.
    + discriminate.
  - pose proof (resolve_engine_environ _ _ _ _ Hres) as Henv.
    assert (Hno : forall err : startup_error,
              @inr startup_error (string * gmap string string) (name, env') = inl err ->
              False) by discriminate.
    destruct (create_engine sql name) as [x|]; simpl.
    { refine (conj Henv (conj eq_refl (conj (fun _ => eq_refl) (conj _ _)))).
      - intros err H. destruct (Hno err H).
      - discriminate. }
    destruct (create_all sql name) as [x|]; simpl.
    { refine (conj Henv (conj eq_refl (conj (fun _ => eq_refl) (conj _ _)))).
      - intros err H. destruct (Hno err H).
      - discriminate. }
    destruct (sessionmaker sql name) as [x|]; simpl.
    { refine (conj Henv (conj eq_refl (conj (fun _ => eq_refl) (conj _ _)))).
      - intros err H. destruct (Hno err H).
      - discriminate. }
    destruct (Z.eqb_spec debug 2) as [->|Hne].
    + unfold _delete_existing_data.
      destruct (failed_delete sql) as [[x rows_left]|]; simpl.
      * refine (conj Henv (conj eq_refl (conj _ (conj _ _)))).
        -- intros H. contradiction.
        -- intros err H. destruct (Hno err H).
        -- discriminate.
      * refine (conj Henv (conj eq_refl (conj _ (conj _ _)))).
        -- intros H. contradiction.
        -- intros err H. destruct (Hno err H).
        -- intros self [= <-]. split; [|reflexivity].
           intros _. apply filter_none. reflexivity.
    + simpl. refine (conj Henv (conj eq_refl (conj (fun _ => eq_refl) (conj _ _)))).
      * intros err H. destruct (Hno err H).
      * intros self [= <-]. split; [contradiction|reflexivity].
Qed.

(** A missing configuration; [debug = 2] on a good one; another value of
    [debug]; and an engine that cannot be created for an oracle entry, which
    leaves TNS_ADMIN set. *)
Example init_on_scenarios :
  let ok := {| create_engine := fun _ => None; create_all := fun _ => None;
               sessionmaker := fun _ => None; failed_delete := None |} in
  let no_driver :=
    {| create_engine := fun _ => Some (Exception "ModuleNotFoundError");
       create_all := fun _ => None; sessionmaker := fun _ => None;
       failed_delete := None |} in
  let p := {| environ := ∅; json_files := ∅;
              tables := [AttemptRow Scenario.accepted_abc] |} in
  let cfg : gmap string string :=
    {[ "DBTYPE" := "oracle"; "ENGINE_NAME" := "oracle+cx_oracle://u@db";
       "TNS_ADMIN" := "/secrets/wallet" ]} in
  let q :=
    {| environ := {[ "DB_CONNECTION_CONFIG_FILE" := "/secret/config.json" ]};
       json_files := {[ "/secret/config.json" := Some {[ "prod" := cfg ]} ]};
       tables := [] |} in
  init ok "http://localhost:5025" "ns" "FN4-queue" (Some "prod") 2 "fn4dev" p
  = (p, inl (FN4LoadError NoConfigFileVariable))
  /\ tables (fst (init ok "http://localhost:5025" "ns" "FN4-queue" None 2 "fn4dev" p)) = []
  /\ tables (fst (init ok "http://localhost:5025" "ns" "FN4-queue"
                    (Some "sqlite:///db/prod.sqlite") 0 "fn4dev" p))
     = tables p
  /\ snd (init no_driver "http://localhost:5025" "ns" "FN4-queue" (Some "prod") 0
             "fn4dev" q)
     = inl (Raised (Exception "ModuleNotFoundError"))
  /\ environ (fst (init no_driver "http://localhost:5025" "ns" "FN4-queue" (Some "prod") 0
                      "fn4dev" q)) !! "TNS_ADMIN"
     = Some "/secrets/wallet".
Proof. repeat split. Qed.

(** ** The listing of the bucket *)

Lemma dict_set_not_nil {V : Type} (k : string) (v : V) (d : list (string * V)) :
  dict_set k v d <> [].
Proof. destruct d as [|[k' v'] d]; simpl; [|destruct (String.eqb k' k)]; discriminate. Qed.

Lemma fold_dict_set_not_nil (objects : list ObjectSummary) :
  forall d : list (string * frame_row),
    d <> [] ->
    fold_left (fun d item => dict_set (o_etag item) (row_of item) d) objects d <> [].
Proof.
  induction objects as [|o objects IH]; intros d Hd; [exact Hd|].
  simpl. apply IH. apply dict_set_not_nil.
Qed.

Lemma sort_values_length (l : list frame_row) : length (sort_values l) = length l.
Proof.
  assert (Hins : forall r l0, length (insert_by_time r l0) = S (length l0)).
  { intros r l0. induction l0 as [|x l0 IH]; simpl; [reflexivity|].
    destruct (r_time_created r <=? r_time_created x)%nat; simpl; [reflexivity|].
    rewrite IH. reflexivity. }
  induction l as [|r l IH]; simpl; [reflexivity|]. rewrite Hins, IH. reflexivity.
Qed.

(** [list_files] returns [None] exactly for a bucket without objects; with
    objects it returns a frame with at least one row and at most one row
    per object, and the pass sees its names. *)
Theorem list_files_none_iff_empty (objects : list ObjectSummary) :
  (list_files_frame objects = None <-> objects = [])
  /\ (forall rows, list_files_frame objects = Some rows ->
        0 < length rows <= length objects)
  /\ (forall (e : env) (s : state),
        bucket_names e = Ok (frame_names objects) ->
        list_files e s
        = (s, Ok (option_map (map r_name) (list_files_frame objects)))).
Proof.
  assert (Hlen : forall objs d,
             length (fold_left (fun d item => dict_set (o_etag item) (row_of item) d)
                       objs d)
             <= length d + length objs).
  { induction objs as [|o objs IH]; intros d; simpl; [lia|].
    etransitivity; [apply IH|].
    assert (Hset : length (dict_set (o_etag o) (row_of o) d) <= S (length d)).
    { clear. induction d as [|[k v] d IHd]; simpl; [lia|].
      destruct (String.eqb k (o_etag o)); simpl; lia. }
    lia. }
  unfold list_files_frame. split; [|split].
  - destruct (map snd (retdict objects)) as [|r rows] eqn:Hrows.
    + split; [|reflexivity]. intros _.
      destruct objects as [|o objects]; [reflexivity|]. exfalso.
      apply map_eq_nil in Hrows.
      apply (fold_dict_set_not_nil objects (dict_set (o_etag o) (row_of o) [])
               (dict_set_not_nil _ _ _)).
      exact Hrows.
    + split; [discriminate|]. intros ->. discriminate.
  - intros rows. pose proof (Hlen objects []) as Hle. fold (retdict objects) in Hle.
    rewrite <- (length_map snd) in Hle.
    destruct (map snd (retdict objects)) as [|r l]; [discriminate|].
    intros Heq. assert (Hrows : rows = sort_values (r :: l)) by congruence.
    rewrite Hrows, sort_values_length. simpl in *. lia.
  - intros e s Hnames. unfold list_files, bind, lift. rewrite Hnames.
    unfold frame_names, list_files_frame.
    destruct (map snd (retdict objects)) as [|r l] eqn:Hrows; [reflexivity|].
    pose proof (sort_values_length (r :: l)) as Hsl.
    revert Hsl. generalize (sort_values (r :: l)). intros sorted Hsl.
    destruct sorted as [|r0 l0]; [discriminate|]. reflexivity.
Qed.

Lemma list_files_none_iff_empty_witness :
  let a := {| o_name := "a.fasta"; o_etag := "e1"; o_time_created := 7;
              o_md5 := "m1"; o_size := 10 |} in
  let b := {| o_name := "b.fasta"; o_etag := "e2"; o_time_created := 3;
              o_md5 := "m2"; o_size := 20 |} in
  0 < length [row_of b; row_of a] <= length [a; b].
Proof.
  intros a b.
  apply (proj1 (proj2 (list_files_none_iff_empty [a; b])) [row_of b; row_of a]).
  reflexivity.
Defined.

Lemma insert_by_time_perm (r : frame_row) (l : list frame_row) :
  Permutation (insert_by_time r l) (r :: l).
Proof.
  induction l as [|x l IH]; simpl; [reflexivity|].
  destruct (r_time_created r <=? r_time_created x)%nat; [reflexivity|].
  rewrite IH. apply perm_swap.
Qed.

Lemma sort_values_perm (l : list frame_row) : Permutation (sort_values l) l.
Proof.
  induction l as [|r l IH]; simpl; [reflexivity|].
  rewrite insert_by_time_perm, IH. reflexivity.
Qed.

Lemma insert_by_time_sorted (r : frame_row) (l : list frame_row) :
  Sorted not_later l -> Sorted not_later (insert_by_time r l).
Proof.
  induction l as [|x l IH]; intros Hs; simpl.
  - repeat constructor.
  - destruct (Nat.leb_spec (r_time_created r) (r_time_created x)) as [Hle|Hgt].
    + constructor; [exact Hs|]. constructor. exact Hle.
    + inversion Hs as [|? ? Hs' Hhd]; subst. constructor; [apply IH; exact Hs'|].
      destruct l as [|y l]; simpl.
      * constructor. unfold not_later. lia.
      * destruct (r_time_created r <=? r_time_created y)%nat;
          constructor; [unfold not_later; lia|].
        inversion Hhd; subst. assumption.
Qed.

Lemma sort_values_sorted (l : list frame_row) : Sorted not_later (sort_values l).
Proof.
  induction l as [|r l IH]; simpl; [constructor|].
  apply insert_by_time_sorted. exact IH.
Qed.

Lemma dict_set_fresh {V : Type} (k : string) (v : V) (d : list (string * V)) :
  ~ In k (map fst d) -> dict_set k v d = d ++ [(k, v)].
Proof.
  induction d as [|[k' v'] d IH]; intros Hk; simpl; [reflexivity|].
  destruct (String.eqb_spec k' k) as [->|Hne].
  - exfalso. apply Hk. left. reflexivity.
  - rewrite IH; [reflexivity|]. intros Hin. apply Hk. right. exact Hin.
Qed.

Lemma retdict_distinct (objects : list ObjectSummary) :
  forall d : list (string * frame_row),
    List.NoDup (map fst d ++ map o_etag objects) ->
    fold_left (fun d item => dict_set (o_etag item) (row_of item) d) objects d
    = d ++ map (fun o => (o_etag o, row_of o)) objects.
Proof.
  induction objects as [|o objects IH]; intros d Hnd; simpl.
  - rewrite app_nil_r. reflexivity.
  - assert (Hfresh : ~ In (o_etag o) (map fst d)).
    { intros Hin. apply NoDup_remove_2 in Hnd. apply Hnd.
      apply in_or_app. left. exact Hin. }
    rewrite (dict_set_fresh _ _ _ Hfresh), IH.
    + rewrite <- app_assoc. reflexivity.
    + rewrite map_app. simpl. rewrite <- app_assoc. exact Hnd.
Qed.

Lemma dict_set_values {V : Type} (k : string) (v : V) (d : list (string * V)) (x : V) :
  In x (map snd (dict_set k v d)) -> x = v \/ In x (map snd d).
Proof.
  induction d as [|[k' v'] d IH]; simpl.
  - intros [<-|[]]. left. reflexivity.
  - destruct (String.eqb k' k); simpl.
    + intros [<-|Hin]; [left; reflexivity|right; right; exact Hin].
    + intros [<-|Hin]; [right; left; reflexivity|].
      destruct (IH Hin) as [->|Hd]; [left; reflexivity|right; right; exact Hd].
Qed.

Lemma retdict_values (objects : list ObjectSummary) :
  forall (d : list (string * frame_row)) (x : frame_row),
    In x (map snd (fold_left (fun d item => dict_set (o_etag item) (row_of item) d)
                     objects d)) ->
    In x (map snd d) \/ exists o, In o objects /\ x = row_of o.
Proof.
  induction objects as [|o objects IH]; intros d x Hin; simpl in Hin; [left; exact Hin|].
  destruct (IH _ _ Hin) as [Hd|(o' & Ho' & ->)].
  - destruct (dict_set_values _ _ _ _ Hd) as [->|Hd'].
    + right. exists o. split; [left; reflexivity|reflexivity].
    + left. exact Hd'.
  - right. exists o'. split; [right; exact Ho'|reflexivity].
Qed.

(** The frame that [list_files] returns is in ascending order of
    [time_created]; each of its rows is the row of a listed object; and
    when the etags of the listing are distinct it holds the rows of all
    listed objects, each once. *)
Theorem list_files_sorted_by_time
    (objects : list ObjectSummary) (rows : list frame_row) :
  list_files_frame objects = Some rows ->
  Sorted not_later rows
  /\ (forall row, In row rows -> exists o, In o objects /\ row = row_of o)
  /\ (List.NoDup (map o_etag objects) -> Permutation rows (map row_of objects)).
Proof.
  unfold list_files_frame. intros Hrows.
  destruct (map snd (retdict objects)) as [|r l] eqn:Hdict; [discriminate|].
  assert (Heq : rows = sort_values (r :: l)) by congruence. subst rows.
  rewrite <- Hdict. split; [apply sort_values_sorted|]. split.
  - intros row Hin.
    apply (Permutation_in _ (sort_values_perm _)) in Hin.
    destruct (retdict_values objects [] row Hin) as [[]|Hex]. exact Hex.
  - intros Hnd. rewrite sort_values_perm. unfold retdict.
    rewrite (retdict_distinct objects [] Hnd). simpl.
    rewrite map_map. simpl. reflexivity.
Qed.

Lemma list_files_sorted_by_time_witness :
  let a := {| o_name := "a.fasta"; o_etag := "e1"; o_time_created := 7;
              o_md5 := "m1"; o_size := 10 |} in
  let b := {| o_name := "b.fasta"; o_etag := "e2"; o_time_created := 3;
              o_md5 := "m2"; o_size := 20 |} in
  Sorted not_later [row_of b; row_of a]
  /\ (List.NoDup (map o_etag [a; b]) ->
      Permutation [row_of b; row_of a] (map row_of [a; b])).
Proof.
  intros a b.
  destruct (list_files_sorted_by_time [a; b] [row_of b; row_of a] eq_refl)
    as (Hs & _ & Hp).
  split; [exact Hs|exact Hp].
Defined.

(** ** Where the exceptions of a file come from *)

Lemma parse_loop_success (fname : string) (records : list SeqRecord) :
  forall (k : nat) (res : res_dict) (sq : option string),
    fn4id res = None ->
    (parse_status res = "Success" -> is_Some (seqid res) /\ is_Some sq) ->
    fn4id (fst (parse_loop fname records k res sq)) = None
    /\ (parse_status (fst (parse_loop fname records k res sq)) = "Success" ->
        is_Some (seqid (fst (parse_loop fname records k res sq)))
        /\ is_Some (snd (parse_loop fname records k res sq))).
Proof.
  induction records as [|r records IH]; intros k res sq Hid Hs; [split; assumption|].
  simpl. destruct (Nat.ltb_spec 1 (S k)); apply IH; simpl; auto; discriminate.
Qed.

Lemma attempt_run (self : ObjectStore2FN4) (e : env) (batch_start n_to_add i : nat)
    (fname : string) (s : state) :
  attempt self e batch_start n_to_add i fname s
  = match bucket_get e fname with
    | Raise x =>
        ({| clock := S (clock s); db := db s; calls := calls s ++ [GetObject fname] |},
         Raise x)
    | Ok content =>
        match SeqIO_parse e content with
        | (_, Some x) => (after_read fname s, Raise x)
        | (records, None) =>
            (let '(res, sq) :=
               parse_loop fname records 0
                 (new_res self batch_start n_to_add i fname content (clock s)
                    (S (clock s))) None in
             res <- derive_fn4id res ;; submit e res sq) (after_read fname s)
        end
    end.
Proof.
  unfold attempt, load_bucket_into_string, parse_file, bind, now, called, lift.
  simpl. destruct (bucket_get e fname) as [content|x]; [|reflexivity].
  simpl. destruct (SeqIO_parse e content) as [records [x|]]; [reflexivity|].
  unfold ret. destruct (parse_loop _ _ _ _ _) as [res sq]. reflexivity.
Qed.

(** Up to the point where the row is made (lines 742-794), the loop body
    raises only what its collaborators raised: the error of the read, the
    error of the FASTA reader, the error of the post, or HTTPError for a 5xx
    answer to the post.  Its own guards (TypeError in [_insert], a missing
    [seqid]) are never reached. *)
Theorem attempt_raises_only_outside_errors
    (self : ObjectStore2FN4) (e : env) (batch_start n_to_add i : nat)
    (fname : string) (s : state) (err : exn) :
  snd (attempt self e batch_start n_to_add i fname s) = Raise err ->
  bucket_get e fname = Raise err
  \/ (exists content records,
        bucket_get e fname = Ok content
        /\ SeqIO_parse e content = (records, Some err))
  \/ exists g q,
       http_insert e g q = Raise err
       \/ exists resp, http_insert e g q = Ok resp
                       /\ (500 <= status_code resp < 600)%Z
                       /\ err = HTTPError (status_code resp).
Proof.
  rewrite attempt_run.
  destruct (bucket_get e fname) as [content|x] eqn:Hget.
  - destruct (SeqIO_parse e content) as [records [x|]] eqn:Hparse.
    { simpl. intros [= <-]. right. left. exists content, records. auto. }
    pose proof (parse_loop_success fname records 0
                  (new_res self batch_start n_to_add i fname content (clock s)
                     (S (clock s))) None eq_refl) as Hinv.
    destruct (parse_loop _ _ _ _ _) as [res sq]. simpl in Hinv.
    destruct Hinv as [Hid Hs]; [discriminate|].
    unfold bind at 1. unfold derive_fn4id.
    destruct (String.eqb_spec (parse_status res) "Success") as [Hsucc|Hfail].
    + destruct (Hs Hsucc) as [[sid Hsid] [q Hq]]. subst sq. rewrite Hsid. simpl.
      destruct (filename2fn4id sid) as [g|]; simpl.
      * unfold submit. simpl.
        unfold bind at 1. unfold now at 1. simpl. unfold bind at 1. unfold _insert.
        unfold bind at 1. unfold called at 1. simpl. rewrite getpost_run.
        destruct (http_insert e g q) as [resp|x] eqn:Hpost.
        -- destruct (Z.leb_spec 500 (status_code resp));
             destruct (Z.ltb_spec (status_code resp) 600); simpl; try discriminate.
           intros [= <-]. right. right. exists g, q. right. exists resp.
           split; [exact Hpost|]. split; [lia|reflexivity].
        -- simpl. intros [= <-]. right. right. exists g, q. left. exact Hpost.
      * unfold submit. simpl. discriminate.
    + unfold ret, submit. simpl. rewrite Hid. simpl. discriminate.
  - simpl. intros [= <-]. left. reflexivity.
Qed.

Lemma attempt_raises_only_outside_errors_witness :
  let w := Scenario.world [("abc.fasta", Fasta.file "GPAS_SP3|abc" "ACGT")] [] 503 in
  bucket_get w "abc.fasta" = Raise (HTTPError 503)
  \/ (exists content records,
        bucket_get w "abc.fasta" = Ok content
        /\ SeqIO_parse w content = (records, Some (HTTPError 503)))
  \/ exists g q,
       http_insert w g q = Raise (HTTPError 503)
       \/ exists resp, http_insert w g q = Ok resp
                       /\ (500 <= status_code resp < 600)%Z
                       /\ HTTPError 503 = HTTPError (status_code resp).
Proof.
  intros w.
  apply (attempt_raises_only_outside_errors Scenario.me w 0 1 0 "abc.fasta"
           Scenario.start (HTTPError 503)).
  reflexivity.
Defined.

(** ** What is posted *)

Lemma process_file_tagged_calls
    (self : ObjectStore2FN4) (e : env) (batch_start n_to_add i : nat)
    (fname : string) (s : state) (content : string) (r : SeqRecord) (g : string) :
  bucket_get e fname = Ok content ->
  SeqIO_parse e content = ([r], None) ->
  filename2fn4id (id r) = Some g ->
  calls (fst (process_file self e batch_start n_to_add i fname s))
  = calls s ++ [GetObject fname; PostInsert g (seq r)].
Proof.
  intros Hget Hparse Hid.
  rewrite (process_file_fetch_ok _ _ _ _ _ _ _ _ _ Hget Hparse), parse_loop_one.
  unfold bind, derive_fn4id. simpl. rewrite Hid. simpl.
  unfold submit, _insert, bind, now, called. simpl. rewrite getpost_run.
  destruct (http_insert e g (seq r)) as [resp|x]; simpl;
    [destruct (_ && _); simpl|]; rewrite <- app_assoc; reflexivity.
Qed.

(** A file is posted only when its text holds exactly one record whose id
    carries the tag, and what is posted is that record: its sequence, under
    the identity taken from its id. *)
Theorem post_is_the_single_tagged_record
    (self : ObjectStore2FN4) (e : env) (batch_start n_to_add i : nat)
    (fname : string) (s : state) (g q : string) :
  In (PostInsert g q) (calls (fst (process_file self e batch_start n_to_add i fname s))) ->
  In (PostInsert g q) (calls s)
  \/ exists content r,
       bucket_get e fname = Ok content
       /\ SeqIO_parse e content = ([r], None)
       /\ filename2fn4id (id r) = Some g
       /\ q = seq r.
Proof.
  intros Hin.
  assert (Hold : forall extra,
             In (PostInsert g q) (calls s ++ GetObject fname :: extra) ->
             In (PostInsert g q) (calls s) \/ In (PostInsert g q) extra).
  { intros extra H. apply in_app_or in H. destruct H as [H|[H|H]]; auto. discriminate. }
  destruct (bucket_get e fname) as [content|x] eqn:Hget.
  - destruct (SeqIO_parse e content) as [[|r [|r2 rest]] [x|]] eqn:Hparse;
      try (rewrite (process_file_reader_raise self e _ _ _ _ s content _ x Hget Hparse)
             in Hin;
           simpl in Hin; destruct (Hold [] Hin) as [H|[]]; left; exact H).
    + rewrite (process_file_no_record self e _ _ _ _ s content Hget Hparse) in Hin.
      simpl in Hin. destruct (Hold [] Hin) as [H|[]]. left. exact H.
    + destruct (filename2fn4id (id r)) as [g'|] eqn:Hid.
      * rewrite (process_file_tagged_calls self e _ _ _ _ s content r g' Hget Hparse Hid)
          in Hin.
        destruct (Hold _ Hin) as [H|[H|[]]]; [left; exact H|].
        injection H as <- <-. right. exists content, r. auto.
      * rewrite (process_file_untagged self e _ _ _ _ s content r Hget Hparse Hid) in Hin.
        simpl in Hin. destruct (Hold [] Hin) as [H|[]]. left. exact H.
    + rewrite (process_file_multi self e _ _ _ _ s content r r2 rest Hget Hparse) in Hin.
      simpl in Hin. destruct (Hold [] Hin) as [H|[]]. left. exact H.
  - rewrite (process_file_fetch_raise self e _ _ _ _ s x Hget) in Hin.
    simpl in Hin. destruct (Hold [] Hin) as [H|[]]. left. exact H.
Qed.

Lemma post_is_the_single_tagged_record_witness :
  let w := Scenario.world [("abc.fasta", Fasta.file "GPAS_SP3|xyz" "ACGT")] [] 200 in
  In (PostInsert "xyz" "ACGT") (calls Scenario.start)
  \/ exists content r,
       bucket_get w "abc.fasta" = Ok content
       /\ SeqIO_parse w content = ([r], None)
       /\ filename2fn4id (id r) = Some "xyz"
       /\ "ACGT" = seq r.
Proof.
  intros w.
  apply (post_is_the_single_tagged_record Scenario.me w 0 1 0 "abc.fasta" Scenario.start).
  vm_compute. right. left. reflexivity.
Defined.
